(** * foundry-dev-tools: the Compass client and its API types

    A shallow embedding of
    [foundry_dev_tools/clients/compass.py] and
    [foundry_dev_tools/utils/api_types.py], followed by the properties
    the specification states about them.

    Conventions of the embedding:
    - a Python [str] is a [string]; its characters are the code points
      below 256;
    - a Python [set] of strings is a [gset string], [list(s)] is
      [elements s]; a [dict] keyed by strings is a [gmap string _];
    - a method of the client runs in the monad [M]: it reads and extends
      a [World] (the requests handed to the dispatcher, the warnings
      issued, the items a generator has yielded so far) and either
      returns a value or raises an [Exception];
    - the request dispatcher [APIClient.api_request] belongs to another
      module; it is the parameter [transport] of every method. *)

From Stdlib Require Import ZArith NArith Ascii DecimalString DecimalPos Lia.
From stdpp Require Import strings gmap.

Local Open Scope Z_scope.

#[local] Set Warnings "-register-all".

(* ===================================================================== *)
(** * Python built-ins used by the two modules *)
(* ===================================================================== *)

Module Py.

(** [c] is one of the characters '0' .. '9' (the only code points of
    category Nd below 256). *)
Definition is_decimal_char (c : ascii) : bool :=
  ((48 <=? N_of_ascii c) && (N_of_ascii c <=? 57))%N.

Fixpoint all_decimal (s : string) : bool :=
  match s with
  | EmptyString => true
  | String c r => is_decimal_char c && all_decimal r
  end.

(** [str.isdecimal()]: every character is a decimal character and there
    is at least one character. *)
Definition isdecimal (s : string) : bool :=
  match s with
  | EmptyString => false
  | String _ _ => all_decimal s
  end.

Definition digit_value (c : ascii) : Z := Z.of_N (N_of_ascii c) - 48.

(** The white space that [int] drops around a number: \t \n \v \f \r and
    the space, and beyond ASCII NEL (0x85) and the no-break space (0xa0). *)
Definition is_space (c : ascii) : bool :=
  let n := N_of_ascii c in
  (((9 <=? n) && (n <=? 13)) || (n =? 32) || (n =? 133) || (n =? 160))%N.

Fixpoint lstrip (s : string) : string :=
  match s with
  | EmptyString => EmptyString
  | String c r => if is_space c then lstrip r else s
  end.

Fixpoint rstrip (s : string) : string :=
  match s with
  | EmptyString => EmptyString
  | String c r =>
      match rstrip r with
      | EmptyString => if is_space c then EmptyString else String c EmptyString
      | r' => String c r'
      end
  end.

Definition strip (s : string) : string := rstrip (lstrip s).

(** The digits of a base-10 integer literal: decimal characters, with
    single underscores allowed between two of them. [acc] is the value
    read so far, [after_digit] tells whether the previous character was a
    digit. *)
Fixpoint int_digits (acc : Z) (after_digit : bool) (s : string) : option Z :=
  match s with
  | EmptyString => if after_digit then Some acc else None
  | String c r =>
      if is_decimal_char c then int_digits (10 * acc + digit_value c) true r
      else if Ascii.eqb c "_"
           then (if after_digit then int_digits acc false r else None)
           else None
  end.

(** [int(s)] for a string [s]: surrounding white space is dropped, one
    sign is allowed, then come the digits. [None] stands for the
    [ValueError] that [int] raises on any other text. The model leaves
    out the limit on the number of digits that recent interpreters
    enforce. *)
Definition int (s : string) : option Z :=
  match strip s with
  | String "+" r => int_digits 0 false r
  | String "-" r => Z.opp <$> int_digits 0 false r
  | t => int_digits 0 false t
  end.

(** [str(n)] for an integer [n], as an f-string prints it. *)
Definition str_of_int (n : Z) : string := NilZero.string_of_int (Z.to_int n).

Definition hex_digit (n : N) : ascii :=
  ascii_of_N (if (n <? 10)%N then 48 + n else 87 + n)%N.

Fixpoint contains_char (c : ascii) (s : string) : bool :=
  match s with
  | EmptyString => false
  | String d r => Ascii.eqb c d || contains_char c r
  end.

Definition double_quote : ascii := "034".
Definition single_quote : ascii := "'".
Definition backslash : ascii := "\".

(** The quote [repr] puts around a string: the single quote, unless the
    string has a single quote and no double quote. *)
Definition repr_quote (s : string) : ascii :=
  if contains_char single_quote s && negb (contains_char double_quote s)
  then double_quote else single_quote.

(** How [repr] writes one character inside the quotes [q]. *)
Definition repr_char (q c : ascii) : string :=
  let n := N_of_ascii c in
  if Ascii.eqb c q || Ascii.eqb c backslash then String backslash (String c "")
  else if (n =? 9)%N then String backslash "t"
  else if (n =? 10)%N then String backslash "n"
  else if (n =? 13)%N then String backslash "r"
  else if ((n <? 32) || ((127 <=? n) && (n <=? 160)) || (n =? 173))%N
       then String backslash
              (String "x" (String (hex_digit (n / 16)) (String (hex_digit (n mod 16)) "")))
  else String c "".

Fixpoint repr_body (q : ascii) (s : string) : string :=
  match s with
  | EmptyString => ""
  | String c r => repr_char q c +:+ repr_body q r
  end.

(** [repr(s)] for a string [s]. *)
Definition repr (s : string) : string :=
  let q := repr_quote s in
  String q (repr_body q s +:+ String q "").

Fixpoint join (sep : string) (l : list string) : string :=
  match l with
  | [] => ""
  | [x] => x
  | x :: r => x +:+ sep +:+ join sep r
  end.

(** [str(t)] for a tuple [t] of strings: the [repr] of the members
    between parentheses, a one-member tuple written with its comma. *)
Definition str_of_tuple (t : list string) : string :=
  match t with
  | [x] => "(" +:+ repr x +:+ ",)"
  | _ => "(" +:+ join ", " (repr <$> t) +:+ ")"
  end.

(** [range(start, stop, step)] for a positive [step]. *)
Definition range (start stop step : nat) : list nat :=
  (fun k => start + k * step)%nat <$> seq 0 ((stop - start + (step - 1)) / step)%nat.

(** The slice [l[i:j]] for indices [0 <= i <= j]; like Python's, it
    stops at the end of the list. *)
Definition slice {A} (l : list A) (i j : nat) : list A :=
  take (j - i) (drop i l).

End Py.

(* ===================================================================== *)
(** * Requests, responses and the client monad *)
(* ===================================================================== *)

(** [Rid], [ProjectRid], [FolderRid] and [RoleId] are all [str] in
    [api_types]. *)
Abbreviation Rid := string (only parsing).

(** A JSON value inside a response (a child resource, a project, a path,
    an existence flag). *)
Inductive Json : Type :=
| JNull
| JBool (b : bool)
| JNumber (n : Z)
| JString (s : string)
| JArray (items : list Json)
| JObject (fields : list (string * Json)).

(** What [response.json()] holds, by the shapes the client's annotations
    declare: a dictionary keyed by resource identifier, or one page of a
    listing with its [values] and [nextPageToken]. *)
Inductive Payload : Type :=
| NoJson
| Mapping (m : gmap string Json)
| Page (values : list Json) (nextPageToken : option string).

Record Response := mkResponse { status_code : Z; json : Payload }.

(** What [get_decoration] returns when it does not return [None]: a list
    or the set itself. *)
Inductive Decoration : Type :=
| AsList (l : list string)
| AsSet (s : gset string).

(** [ResourceDecorationSetAll]: the literal "all" or a set of decorations. *)
Inductive ResourceDecorationSetAll : Type :=
| all
| decorations_set (s : gset string).

Record SortSpec := { field : string; direction : string }.

(** The query parameters of [GET folders/{rid}/children]. *)
Module ChildrenParams.
Record t := mk {
  filter : option (gset string);
  decoration : option Decoration;
  limit : option Z;
  sort : option string;
  pageToken : option string;
  permissiveFolders : option bool;
  includeOperations : bool;
  additionalOperations : option string }.
End ChildrenParams.

(** The JSON body of [POST search/projects]. *)
Module SearchBody.
Record t := mk {
  query : option string;
  decorations : option Decoration;
  organizations : option (gset string);
  tags : option (gset string);
  roles : option (gset string);
  includeHomeProjects : option bool;
  directRoleGrantPrincipalIds : option (gmap string (gset string));
  sort : option SortSpec;
  pageSize : Z;
  pageToken : option string }.
End SearchBody.

Inductive RequestData : Type :=
| JsonRids (rids : list Rid)
| Params (p : ChildrenParams.t)
| JsonBody (b : SearchBody.t).

(** The pass-through keyword arguments of the [api_*] methods. *)
Abbreviation Kwargs := (list (string * Json)) (only parsing).

(** One call of [api_request]. *)
Record Request := mkRequest {
  method : string;
  api_path : string;
  headers : option (list (string * string));
  data : RequestData;
  kwargs : Kwargs }.

(** Modelled from the spec: [ErrorHandlingConfig] and
    [raise_foundry_api_error] live in [foundry_dev_tools.errors.handling],
    which is not among the sources at hand. Following the specification,
    the configuration carries the context given by keyword ([info], [rids])
    and [raise_foundry_api_error] raises an API error that holds the
    response and that context. *)
Record ErrorHandlingConfig := mkErrorHandlingConfig {
  info : option string;
  rids : option (gset Rid) }.

Inductive Exception : Type :=
| ValueError (msg : string)
| TypeError (msg : string)
| FoundryAPIError (response : Response) (error_handling : ErrorHandlingConfig)
| DispatcherError (name : string)
| UnexpectedJson (response : Response).

Inductive Outcome (A : Type) : Type :=
| Return (a : A)
| Raise (e : Exception).
Arguments Return {A} a.
Arguments Raise {A} e.

(** The observable effects of the client: the requests handed to the
    dispatcher (oldest first), the warnings issued, and the items a
    generator has yielded. *)
Record World := mkWorld {
  sent : list Request;
  warned : list string;
  yielded : list Json }.

Definition M (A : Type) : Type := World -> Outcome A * World.

Definition ret {A} (a : A) : M A := fun w => (Return a, w).

Definition raise {A} (e : Exception) : M A := fun w => (Raise e, w).

Definition bind {A B} (c : M A) (k : A -> M B) : M B :=
  fun w =>
    match c w with
    | (Return a, w') => k a w'
    | (Raise e, w') => (Raise e, w')
    end.

Notation "x <- c1 ;; c2" := (bind c1 (fun x => c2))
  (at level 100, c1 at next level, right associativity, only parsing).
Notation "c1 ;; c2" := (bind c1 (fun _ => c2))
  (at level 100, right associativity, only parsing).

(** [warnings.warn(msg)] *)
Definition warn (msg : string) : M unit :=
  fun w => (Return tt, mkWorld (sent w) (warned w ++ [msg]) (yielded w)).

(** [yield from values] *)
Definition yield_from (values : list Json) : M unit :=
  fun w => (Return tt, mkWorld (sent w) (warned w) (yielded w ++ values)).

(** The dispatcher with the remote service behind it: it answers a
    request with a response or raises. *)
Abbreviation Transport := (Request -> Outcome Response) (only parsing).

(** [self.api_request(...)] of [APIClient]: the request is handed to the
    dispatcher, whose answer or exception comes back. *)
Definition api_request (transport : Transport) (req : Request) : M Response :=
  fun w => (transport req, mkWorld (sent w ++ [req]) (warned w) (yielded w)).

(** Modelled from the spec: [raise_foundry_api_error] of
    [foundry_dev_tools.errors.handling] raises the API error for a
    response, with the context of the configuration it is given. *)
Definition raise_foundry_api_error
    (response : Response) (error_handling : ErrorHandlingConfig) : M unit :=
  raise (FoundryAPIError response error_handling).

(** [response.json()] read as a dictionary keyed by resource identifier. *)
Definition json_mapping (response : Response) : M (gmap string Json) :=
  match json response with
  | Mapping m => ret m
  | _ => raise (UnexpectedJson response)
  end.

(** [response.json()] read as a page: its [values] and [nextPageToken]. *)
Definition json_page (response : Response) : M (list Json * option string) :=
  match json response with
  | Page values nextPageToken => ret (values, nextPageToken)
  | _ => raise (UnexpectedJson response)
  end.

(** [for x in l: s = body(s, x)] *)
Fixpoint for_in {A S} (l : list A) (s : S) (body : S -> A -> M S) : M S :=
  match l with
  | [] => ret s
  | x :: r => s' <- body s x ;; for_in r s' body
  end.

(** One turn of a [while True] loop either breaks or goes on with the
    next value of the loop variable. *)
Inductive Step (S : Type) : Type :=
| Break
| Continue (s : S).
Arguments Break {S}.
Arguments Continue {S} s.

(** [while True: body], run for at most [fuel] turns; [None] when the
    loop has not ended by then. *)
Fixpoint while_true {S} (fuel : nat) (body : S -> M (Step S)) (s : S) (w : World)
    : option (Outcome unit * World) :=
  match fuel with
  | O => None
  | Datatypes.S fuel' =>
      match body s w with
      | (Raise e, w') => Some (Raise e, w')
      | (Return Break, w') => Some (Return tt, w')
      | (Return (Continue s'), w') => while_true fuel' body s' w'
      end
  end.

(* ===================================================================== *)
(** * utils/api_types.py *)
(* ===================================================================== *)

Module api_types.

(** A [Literal[...]] type is given by the tuple of its arguments, which
    is what [typing.get_args] returns. *)
Definition get_args (literal : list string) : list string := literal.

Definition assert_in_literal (opt : string) (literal : list string)
    (variable_name : string) : Outcome unit :=
  let options := get_args literal in
  if bool_decide (opt ∉ options) then
    let msg := "'" +:+ opt +:+ "' is not a valid option for " +:+ variable_name
               +:+ ", valid options are " +:+ Py.str_of_tuple options in
    Raise (TypeError msg)
  else Return tt.

Definition PatchOperation : list string := ["ADD"; "REMOVE"].

Definition ResourceDecoration : list string :=
  [ "description"; "favorite"; "branches"; "defaultBranch";
    "defaultBranchWithMarkings"; "branchesCount"; "hasBranches";
    "hasMultipleBranches"; "backedObjectTypes"; "path"; "longDescription";
    "inTrash"; "collections"; "namedCollections"; "tags"; "namedTags";
    "alias"; "collaborators"; "namedAncestors"; "markings";
    "projectAccessMarkings"; "linkedItems"; "contactInformation";
    "classification"; "disableInheritedPermissions"; "propagatePermissions";
    "resourceLevelRoleGrantsAllowed" ].

Definition ALL_RESOURCE_DECORATIONS : gset string :=
  list_to_set
  [ "description"; "favorite"; "branches"; "defaultBranch";
    "defaultBranchWithMarkings"; "branchesCount"; "hasBranches";
    "hasMultipleBranches"; "backedObjectTypes"; "path"; "longDescription";
    "inTrash"; "collections"; "namedCollections"; "tags"; "namedTags";
    "alias"; "collaborators"; "namedAncestors"; "markings";
    "projectAccessMarkings"; "linkedItems"; "contactInformation";
    "classification"; "disableInheritedPermissions"; "propagatePermissions";
    "resourceLevelRoleGrantsAllowed" ].

End api_types.

(* ===================================================================== *)
(** * clients/compass.py *)
(* ===================================================================== *)

Module requests.
Module codes.
Definition no_content : Z := 204.
End codes.
End requests.

Module compass.

Definition GET_PATHS_BATCH_SIZE : nat := 100.
Definition GET_PROJECTS_BATCH_SIZE : nat := 1.

Definition DEFAULT_PROJECTS_PAGE_SIZE : Z := 100.
Definition MINIMUM_PROJECTS_PAGE_SIZE : Z := 1.
Definition MAXIMUM_PROJECTS_PAGE_SIZE : Z := 500.
Definition MINIMUM_PROJECTS_SEARCH_OFFSET : Z := 0.
Definition MAXIMUM_PROJECTS_SEARCH_OFFSET : Z := 500.

(** Parses the decoration argument used by the compass client methods. *)
Definition get_decoration (decoration : option ResourceDecorationSetAll) (conv : bool)
    : option Decoration :=
  match decoration with
  | Some all =>
      Some (if conv then AsList (elements api_types.ALL_RESOURCE_DECORATIONS)
            else AsSet api_types.ALL_RESOURCE_DECORATIONS)
  | None => None
  | Some (decorations_set s) => Some (if conv then AsList (elements s) else AsSet s)
  end.

(** [{"User-Bearer-Token": f"Bearer {user_bearer_token}"} if user_bearer_token else None];
    the empty string is falsy. *)
Definition bearer_headers (user_bearer_token : option string)
    : option (list (string * string)) :=
  match user_bearer_token with
  | Some token =>
      if bool_decide (token = "") then None
      else Some [("User-Bearer-Token", "Bearer " +:+ token)]
  | None => None
  end.

Section Client.

(** [self]: the client reaches the service through its dispatcher. *)
Variable transport : Transport.

(** Add resource to trash. *)
Definition api_add_to_trash (rids : gset Rid) (user_bearer_token : option string)
    (kwargs : Kwargs) : M Response :=
  response <- api_request transport
    (mkRequest "POST" "batch/trash/add" (bearer_headers user_bearer_token)
       (JsonRids (elements rids)) kwargs) ;;
  (if bool_decide (status_code response ≠ requests.codes.no_content) then
     raise_foundry_api_error response
       (mkErrorHandlingConfig (Some "Issue while moving resource(s) to trash.") (Some rids))
   else ret tt) ;;
  ret response.

(** Restore resource from trash. *)
Definition api_restore (rids : gset Rid) (user_bearer_token : option string)
    (kwargs : Kwargs) : M Response :=
  response <- api_request transport
    (mkRequest "POST" "batch/trash/restore" (bearer_headers user_bearer_token)
       (JsonRids (elements rids)) kwargs) ;;
  (if bool_decide (status_code response ≠ requests.codes.no_content) then
     raise_foundry_api_error response
       (mkErrorHandlingConfig (Some "Issue while restoring resource(s) from trash.") None)
   else ret tt) ;;
  ret response.

(** Get paths for RIDs. *)
Definition api_get_paths (resource_ids : list Rid) (kwargs : Kwargs) : M Response :=
  api_request transport
    (mkRequest "POST" "batch/paths" None (JsonRids resource_ids) kwargs).

(** Returns a dict which maps RIDs to Paths. *)
Definition get_paths (resource_ids : list Rid) : M (gmap Rid Json) :=
  let list_len := length resource_ids in
  let batches :=
    if (list_len <? GET_PATHS_BATCH_SIZE)%nat then [resource_ids]
    else (fun i => Py.slice resource_ids i (i + GET_PATHS_BATCH_SIZE))
           <$> Py.range 0 list_len GET_PATHS_BATCH_SIZE in
  for_in batches ∅ (fun result batch =>
    response <- api_get_paths batch [] ;;
    paths <- json_mapping response ;;
    (* {**result, **paths}: the entries of [paths] win *)
    ret (paths ∪ result)).

(** Returns children in a given compass folder. The mapping of the
    service's "Compass:NotFound" to [FolderNotFoundError] is done by the
    dispatcher. *)
Definition api_get_children (rid : Rid) (filter : option (gset string))
    (decoration : option ResourceDecorationSetAll) (limit : option Z)
    (sort : option string) (page_token : option string)
    (permissive_folders : option bool) (include_operations : bool)
    (additional_operations : option string) : M Response :=
  api_request transport
    (mkRequest "GET" ("folders/" +:+ rid +:+ "/children") None
       (Params (ChildrenParams.mk filter (get_decoration decoration true) limit sort
                  page_token permissive_folders include_operations
                  additional_operations))
       []).

(** One turn of the loop of [get_child_objects_of_folder]. *)
Definition get_child_objects_of_folder_body (rid : Rid) (filter : option (gset string))
    (decoration : option ResourceDecorationSetAll) (limit : option Z)
    (sort : option string) (permissive_folders : option bool)
    (include_operations : bool) (additional_operations : option string)
    (page_token : option string) : M (Step (option string)) :=
  response <- api_get_children rid filter decoration limit sort page_token
                permissive_folders include_operations additional_operations ;;
  response_as_json <- json_page response ;;
  yield_from (fst response_as_json) ;;
  match snd response_as_json with
  | None => ret Break
  | Some token => ret (Continue (Some token))
  end.

(** Returns children in a given compass folder (automatic pagination):
    the generator run to its end, within [fuel] requests. *)
Definition get_child_objects_of_folder (fuel : nat) (rid : Rid)
    (filter : option (gset string)) (decoration : option ResourceDecorationSetAll)
    (limit : option Z) (sort : option string) (permissive_folders : option bool)
    (include_operations : bool) (additional_operations : option string)
    : World -> option (Outcome unit * World) :=
  while_true fuel
    (get_child_objects_of_folder_body rid filter decoration limit sort
       permissive_folders include_operations additional_operations)
    None.

(** Check if resources exist. *)
Definition api_resources_exist (rids : gset Rid) (kwargs : Kwargs) : M Response :=
  api_request transport
    (mkRequest "POST" "batch/resources/exist" None (JsonRids (elements rids)) kwargs).

Definition resources_exist (rids : gset Rid) : M (gmap Rid Json) :=
  response <- api_resources_exist rids [] ;;
  json_mapping response.

(** Check if resource exists: [result.get(rid, False)]. *)
Definition resource_exists (rid : Rid) : M Json :=
  result <- resources_exist {[ rid ]} ;;
  ret (default (JBool false) (result !! rid)).

(** Fetch projects by their resource identifiers. *)
Definition api_get_projects_by_rids (rids : list Rid) (kwargs : Kwargs) : M Response :=
  api_request transport
    (mkRequest "PUT" "hierarchy/v2/batch/projects" None (JsonRids rids) kwargs).

(** Returns a dict which maps rids to projects. *)
Definition get_projects_by_rids (rids : list Rid) : M (gmap Rid Json) :=
  let list_len := length rids in
  let batches :=
    if (list_len <? GET_PATHS_BATCH_SIZE)%nat then [rids]
    else (fun i => Py.slice rids i (i + GET_PATHS_BATCH_SIZE))
           <$> Py.range 0 list_len GET_PROJECTS_BATCH_SIZE in
  for_in batches ∅ (fun result batch =>
    response <- api_get_projects_by_rids batch [] ;;
    projects <- json_mapping response ;;
    (* result.update(projects) *)
    ret (projects ∪ result)).

(** Returns a single project: [result.get(rid)]. *)
Definition get_project_by_rid (rid : Rid) : M (option Json) :=
  response <- api_get_projects_by_rids [rid] [] ;;
  result <- json_mapping response ;;
  ret (result !! rid).

(** Lines 737-750 of [api_search_projects]: the page size is brought into
    its range, with a warning. *)
Definition clamp_page_size (page_size : Z) : M Z :=
  if page_size <? MINIMUM_PROJECTS_PAGE_SIZE then
    warn ("Parameter `page_size` (" +:+ Py.str_of_int page_size +:+ ") is less than "
          +:+ "the minimum page size (" +:+ Py.str_of_int MINIMUM_PROJECTS_PAGE_SIZE +:+ "). "
          +:+ "Defaulting to " +:+ Py.str_of_int MINIMUM_PROJECTS_PAGE_SIZE +:+ ".") ;;
    ret MINIMUM_PROJECTS_PAGE_SIZE
  else if page_size >? MAXIMUM_PROJECTS_PAGE_SIZE then
    warn ("Parameter `page_size` (" +:+ Py.str_of_int page_size +:+ ") is greater than "
          +:+ "the maximum page size (" +:+ Py.str_of_int MAXIMUM_PROJECTS_PAGE_SIZE +:+ "). "
          +:+ "Defaulting to " +:+ Py.str_of_int MAXIMUM_PROJECTS_SEARCH_OFFSET +:+ ".") ;;
    ret MAXIMUM_PROJECTS_PAGE_SIZE
  else ret page_size.

(** Lines 752-774 of [api_search_projects]: the page token is checked. *)
Definition check_page_token (page_token : option string) : M unit :=
  match page_token with
  | Some page_token =>
      if negb (Py.isdecimal page_token) then
        raise (ValueError
          ("Parameter `page_token` (" +:+ page_token
           +:+ ") is expected to contain a number "
           +:+ "as the starting offset for the request. "
           +:+ "The search offset must be within the range from "
           +:+ Py.str_of_int MINIMUM_PROJECTS_SEARCH_OFFSET +:+ " to "
           +:+ Py.str_of_int MAXIMUM_PROJECTS_SEARCH_OFFSET +:+ "."))
      else
        match Py.int page_token with
        | None =>
            raise (ValueError
              ("invalid literal for int() with base 10: " +:+ Py.repr page_token))
        | Some page_token_int =>
            if page_token_int <? MINIMUM_PROJECTS_SEARCH_OFFSET then
              raise (ValueError
                ("Parameter `page_token` (" +:+ Py.str_of_int page_token_int
                 +:+ ") is less than " +:+ "the minimum search offset ("
                 +:+ Py.str_of_int MINIMUM_PROJECTS_SEARCH_OFFSET +:+ ")"))
            else if page_token_int >? MAXIMUM_PROJECTS_SEARCH_OFFSET then
              raise (ValueError
                ("Parameter `page_token` (" +:+ Py.str_of_int page_token_int
                 +:+ ") is greater than " +:+ "the maximum search offset ("
                 +:+ Py.str_of_int MAXIMUM_PROJECTS_SEARCH_OFFSET +:+ ")"))
            else ret tt
        end
  | None => ret tt
  end.

(** Returns a list of projects satisfying the search criteria. *)
Definition api_search_projects (query : option string)
    (decorations : option ResourceDecorationSetAll)
    (organizations tags roles : option (gset string))
    (include_home_projects : option bool)
    (direct_role_grant_principal_ids : option (gmap string (gset string)))
    (sort : option SortSpec) (page_size : Z) (page_token : option string)
    (kwargs : Kwargs) : M Response :=
  let decorations :=
    match decorations with
    | Some _ => get_decoration decorations true
    | None => None
    end in
  page_size <- clamp_page_size page_size ;;
  check_page_token page_token ;;
  let body :=
    SearchBody.mk query decorations organizations tags roles include_home_projects
      direct_role_grant_principal_ids sort page_size page_token in
  api_request transport (mkRequest "POST" "search/projects" None (JsonBody body) kwargs).

(** One turn of the loop of [search_projects]. *)
Definition search_projects_body (query : option string)
    (decorations : option ResourceDecorationSetAll)
    (organizations tags roles : option (gset string))
    (include_home_projects : option bool)
    (direct_role_grant_principal_ids : option (gmap string (gset string)))
    (sort : option SortSpec) (page_size : Z) (page_token : option string)
    : M (Step (option string)) :=
  response <- api_search_projects query decorations organizations tags roles
                include_home_projects direct_role_grant_principal_ids sort
                page_size page_token [] ;;
  response_as_json <- json_page response ;;
  yield_from (fst response_as_json) ;;
  let page_token := snd response_as_json in
  match page_token with
  | None => ret Break
  | Some token =>
      match Py.int token with
      | None =>
          raise (ValueError ("invalid literal for int() with base 10: " +:+ Py.repr token))
      | Some n =>
          if n >? MAXIMUM_PROJECTS_PAGE_SIZE then ret Break
          else ret (Continue (Some token))
      end
  end.

(** Returns a list of projects satisfying the search criteria (automatic
    pagination): the generator run to its end, within [fuel] requests. *)
Definition search_projects (fuel : nat) (query : option string)
    (decorations : option ResourceDecorationSetAll)
    (organizations tags roles : option (gset string))
    (include_home_projects : option bool)
    (direct_role_grant_principal_ids : option (gmap string (gset string)))
    (sort : option SortSpec) (page_size : Z)
    : World -> option (Outcome unit * World) :=
  while_true fuel
    (search_projects_body query decorations organizations tags roles
       include_home_projects direct_role_grant_principal_ids sort page_size)
    None.

End Client.

(** The request of [POST markings/{rid}]: its JSON body is
    [{"markingPatches": [{"markingId": ..., "patchOperation": ...}]}]. *)
Module Markings.
Record MarkingPatch := mkPatch { markingId : string; patchOperation : string }.
Record Request := mk {
  method : string;
  api_path : string;
  headers : option (list (string * string));
  markingPatches : list MarkingPatch;
  kwargs : Kwargs }.
End Markings.

Section MarkingsClient.

(** The dispatcher, for the requests of the markings endpoint; [sent] is
    the list of the requests handed to it so far. *)
Variable transport : Markings.Request -> Outcome Response.

(** Process marking to add or remove from resource. *)
Definition api_process_marking (rid : Rid) (marking_id : string)
    (path_operation_type : string) (user_bearer_token : option string)
    (kwargs : Kwargs) (sent : list Markings.Request)
    : Outcome Response * list Markings.Request :=
  match api_types.assert_in_literal path_operation_type api_types.PatchOperation
          "path_operation_type" with
  | Raise e => (Raise e, sent)
  | Return _ =>
      let body := [Markings.mkPatch marking_id path_operation_type] in
      let request :=
        Markings.mk "POST" ("markings/" +:+ rid) (bearer_headers user_bearer_token)
          body kwargs in
      (transport request, sent ++ [request])
  end.

(** Add marking to resource. *)
Definition add_marking (rid : Rid) (marking_id : string)
    (user_bearer_token : option string) (sent : list Markings.Request)
    : Outcome Response * list Markings.Request :=
  api_process_marking rid marking_id "ADD" user_bearer_token [] sent.

(** Remove marking from resource. *)
Definition remove_marking (rid : Rid) (marking_id : string)
    (user_bearer_token : option string) (sent : list Markings.Request)
    : Outcome Response * list Markings.Request :=
  api_process_marking rid marking_id "REMOVE" user_bearer_token [] sent.

End MarkingsClient.

End compass.

(* ===================================================================== *)
(** * Services used to exercise the client *)
(* ===================================================================== *)

Module Service.

(** Nothing has been sent, warned or yielded yet. *)
Definition fresh : World := mkWorld [] [] [].

(** A dispatcher that answers every request with the same response. *)
Definition constant (response : Response) : Transport :=
  fun _ => Return response.

(** A batch endpoint that knows every identifier: it answers a list of
    identifiers with a dictionary holding [value rid] for each of them. *)
Definition answering (value : Rid -> Json) : Transport :=
  fun req =>
    match data req with
    | JsonRids rids =>
        Return (mkResponse 200 (Mapping (list_to_map ((fun rid => (rid, value rid)) <$> rids))))
    | _ => Raise (DispatcherError "unknown endpoint")
    end.

(** A folder with the fixed children [items], served [page_size] at a
    time. A page token names the offset of the page it asks for: the
    service writes offsets with [token] and reads them with [offset]. *)
Definition folder (token : nat -> string) (offset : string -> nat)
    (items : list Json) (page_size : nat) : Transport :=
  fun req =>
    match data req with
    | Params p =>
        let start :=
          match ChildrenParams.pageToken p with
          | None => 0%nat
          | Some t => offset t
          end in
        Return (mkResponse 200
          (Page (take page_size (drop start items))
                (if (start + page_size <? length items)%nat
                 then Some (token (start + page_size)%nat) else None)))
    | _ => Raise (DispatcherError "unknown endpoint")
    end.

(** Offsets written in decimal. *)
Definition decimal_token (n : nat) : string := Py.str_of_int (Z.of_nat n).
Definition decimal_offset (t : string) : nat :=
  match Py.int t with
  | Some n => Z.to_nat n
  | None => 0%nat
  end.

(** A project search over the fixed list [items]: the page token is the
    decimal offset of the page, the page holds [pageSize] items. *)
Definition projects (items : list Json) : Transport :=
  fun req =>
    match data req with
    | JsonBody b =>
        let start :=
          match SearchBody.pageToken b with
          | None => 0%nat
          | Some t => decimal_offset t
          end in
        let size := Z.to_nat (SearchBody.pageSize b) in
        Return (mkResponse 200
          (Page (take size (drop start items))
                (if (start + size <? length items)%nat
                 then Some (decimal_token (start + size)%nat) else None)))
    | _ => Raise (DispatcherError "unknown endpoint")
    end.

(** The identifiers "ri.0", "ri.1", ..., "ri.(n-1)". *)
Definition numbered_rids (n : nat) : list Rid :=
  (fun i => "ri." +:+ Py.str_of_int (Z.of_nat i)) <$> seq 0 n.

End Service.

(** [sub] occurs inside [s]. *)
Definition occurs_in (sub s : string) : Prop :=
  ∃ before after, s = before +:+ sub +:+ after.

(** The members of what [get_decoration] returns. *)
Definition members (d : Decoration) : gset string :=
  match d with
  | AsList l => list_to_set l
  | AsSet s => s
  end.

(** A decoration argument of the type the annotations declare: [None],
    "all", or a set of [ResourceDecoration] literals. *)
Definition well_typed_decoration (decoration : option ResourceDecorationSetAll) : Prop :=
  match decoration with
  | Some (decorations_set s) => ∀ x, x ∈ s → x ∈ api_types.ResourceDecoration
  | _ => True
  end.

(** The page tokens of the listing requests among [reqs]. *)
Definition page_tokens (reqs : list Request) : list (option string) :=
  omap (fun req =>
          match data req with
          | Params p => Some (ChildrenParams.pageToken p)
          | JsonBody b => Some (SearchBody.pageToken b)
          | JsonRids _ => None
          end) reqs.

(** The batches of identifiers of the batch requests among [reqs]. *)
Definition batches_sent (reqs : list Request) : list (list Rid) :=
  omap (fun req =>
          match data req with
          | JsonRids rids => Some rids
          | _ => None
          end) reqs.

(** A search request whose page size and page token are in the ranges
    the service accepts. *)
Definition in_search_range (req : Request) : Prop :=
  ∃ b, data req = JsonBody b
       ∧ 1 ≤ SearchBody.pageSize b ≤ 500
       ∧ (SearchBody.pageToken b = None
          ∨ ∃ t n, SearchBody.pageToken b = Some t ∧ Py.isdecimal t = true
                   ∧ Py.int t = Some n ∧ 0 ≤ n ≤ 500).

(* ===================================================================== *)
(** * Properties *)
(* ===================================================================== *)

Import api_types compass.

(** Runs the monadic operations of a goal. *)
Ltac run :=
  unfold bind, ret, raise, warn, yield_from, api_request, raise_foundry_api_error,
    json_mapping, json_page; simpl.

(** ** The built-ins on sample inputs *)

Example isdecimal_007 : Py.isdecimal "007" = true. Proof. reflexivity. Qed.
Example isdecimal_empty : Py.isdecimal "" = false. Proof. reflexivity. Qed.
Example isdecimal_minus : Py.isdecimal "-1" = false. Proof. reflexivity. Qed.
Example int_minus : Py.int "-1" = Some (-1). Proof. reflexivity. Qed.
Example int_spaces : Py.int " +1_000 " = Some 1000. Proof. reflexivity. Qed.
Example int_letters : Py.int "abc" = None. Proof. reflexivity. Qed.
Example int_underscores : Py.int "1__0" = None. Proof. reflexivity. Qed.
Example str_of_int_neg : Py.str_of_int (-5) = "-5". Proof. reflexivity. Qed.
Example str_of_int_zero : Py.str_of_int 0 = "0". Proof. reflexivity. Qed.
Example str_of_tuple_two : Py.str_of_tuple ["ADD"; "REMOVE"] = "('ADD', 'REMOVE')".
Proof. reflexivity. Qed.
Example range_250 : Py.range 0 250 100 = [0; 100; 200]%nat. Proof. reflexivity. Qed.
Example range_200 : Py.range 0 200 100 = [0; 100]%nat. Proof. reflexivity. Qed.
Example slice_end : Py.slice [1; 2; 3] 2 102 = [3]. Proof. reflexivity. Qed.

(** ** Loops *)


(** ** Strings *)

Lemma append_nil_l (s : string) : "" +:+ s = s.
Proof. reflexivity. Qed.

Lemma append_cons (c : ascii) (s t : string) : String c s +:+ t = String c (s +:+ t).
Proof. reflexivity. Qed.

Lemma append_nil_r (s : string) : s +:+ "" = s.
Proof. induction s as [|c s IH]; [done | by rewrite append_cons, IH]. Qed.

Lemma append_assoc (s t u : string) : (s +:+ t) +:+ u = s +:+ t +:+ u.
Proof. induction s as [|c s IH]; [done | by rewrite !append_cons, IH]. Qed.

Lemma occurs_in_refl (s : string) : occurs_in s s.
Proof. exists "", "". by rewrite append_nil_l, append_nil_r. Qed.

Lemma occurs_in_trans (s t u : string) : occurs_in s t → occurs_in t u → occurs_in s u.
Proof.
  intros (b1 & a1 & ->) (b2 & a2 & ->).
  exists (b2 +:+ b1), (a1 +:+ a2). by rewrite !append_assoc.
Qed.

Lemma occurs_in_app_l (s t u : string) : occurs_in s t → occurs_in s (t +:+ u).
Proof.
  intros (b & a & ->). exists b, (a +:+ u). by rewrite !append_assoc.
Qed.

Lemma occurs_in_app_r (s t u : string) : occurs_in s u → occurs_in s (t +:+ u).
Proof.
  intros (b & a & ->). exists (t +:+ b), a. by rewrite !append_assoc.
Qed.

Lemma occurs_in_join (sep x : string) (l : list string) :
  x ∈ l → occurs_in x (Py.join sep l).
Proof.
  induction l as [|y l IH]; intros Hx; [by apply not_elem_of_nil in Hx|].
  apply elem_of_cons in Hx as [->|Hx].
  - destruct l; simpl; [apply occurs_in_refl | apply occurs_in_app_l, occurs_in_refl].
  - destruct l as [|z l]; [by apply not_elem_of_nil in Hx|].
    change (Py.join sep (y :: z :: l)) with (y +:+ sep +:+ Py.join sep (z :: l)).
    by apply occurs_in_app_r, occurs_in_app_r, IH.
Qed.

Lemma occurs_in_str_of_tuple (x : string) (t : list string) :
  x ∈ t → occurs_in (Py.repr x) (Py.str_of_tuple t).
Proof.
  intros Hx.
  assert (occurs_in (Py.repr x) ("(" +:+ Py.join ", " (Py.repr <$> t) +:+ ")")) as Hjoin.
  { apply occurs_in_app_r, occurs_in_app_l, occurs_in_join.
    by apply list_elem_of_fmap_2. }
  destruct t as [|y [|z t]]; try exact Hjoin.
  apply list_elem_of_singleton in Hx as ->.
  apply occurs_in_app_r, occurs_in_app_l, occurs_in_refl.
Qed.

(** ** [assert_in_literal] *)

(** C9. A value that is one of the literal's options is accepted; any
    other value raises a [TypeError] whose message contains the value, the
    name of the variable, and the tuple of valid options (hence the
    [repr] of each option). *)
Theorem assert_in_literal_spec (opt : string) (literal : list string) (variable_name : string) :
  (opt ∈ get_args literal → assert_in_literal opt literal variable_name = Return tt) ∧
  (opt ∉ get_args literal →
     ∃ msg, assert_in_literal opt literal variable_name = Raise (TypeError msg)
            ∧ occurs_in opt msg
            ∧ occurs_in variable_name msg
            ∧ occurs_in (Py.str_of_tuple (get_args literal)) msg
            ∧ ∀ o, o ∈ get_args literal → occurs_in (Py.repr o) msg).
Proof.
  unfold assert_in_literal. split; intros Hopt.
  - rewrite bool_decide_eq_false_2; [done | by intros []].
  - rewrite bool_decide_eq_true_2 by done.
    eexists. split; [reflexivity|].
    assert (occurs_in (Py.str_of_tuple (get_args literal))
              ("'" +:+ opt +:+ "' is not a valid option for " +:+ variable_name
               +:+ ", valid options are " +:+ Py.str_of_tuple (get_args literal))) as Htuple.
    { do 5 apply occurs_in_app_r. apply occurs_in_refl. }
    repeat split.
    + apply occurs_in_app_r, occurs_in_app_l, occurs_in_refl.
    + do 3 apply occurs_in_app_r. apply occurs_in_app_l, occurs_in_refl.
    + exact Htuple.
    + intros o Ho. eapply occurs_in_trans; [|exact Htuple].
      by apply occurs_in_str_of_tuple.
Qed.

Lemma assert_in_literal_spec_witness :
  assert_in_literal "ADD" PatchOperation "path_operation_type" = Return tt
  ∧ ∃ msg, assert_in_literal "MOVE" PatchOperation "path_operation_type"
             = Raise (TypeError msg)
           ∧ occurs_in "MOVE" msg
           ∧ occurs_in "path_operation_type" msg
           ∧ occurs_in "('ADD', 'REMOVE')" msg
           ∧ ∀ o, o ∈ get_args PatchOperation → occurs_in (Py.repr o) msg.
Proof.
  split.
  - apply (proj1 (assert_in_literal_spec "ADD" PatchOperation "path_operation_type")).
    apply (bool_decide_unpack _). reflexivity.
  - apply (proj2 (assert_in_literal_spec "MOVE" PatchOperation "path_operation_type")).
    apply (bool_decide_unpack _). reflexivity.
Defined.

(** ** [get_decoration] *)

Lemma ALL_RESOURCE_DECORATIONS_literal :
  ALL_RESOURCE_DECORATIONS = list_to_set ResourceDecoration.
Proof. reflexivity. Qed.

Lemma members_subseteq_vocabulary (s : gset string) :
  (∀ x, x ∈ s → x ∈ ResourceDecoration) → s ⊆ ALL_RESOURCE_DECORATIONS.
Proof.
  intros Hs x Hx. rewrite ALL_RESOURCE_DECORATIONS_literal.
  apply elem_of_list_to_set. auto.
Qed.

Lemma list_to_set_elements (s : gset string) : list_to_set (elements s) = s.
Proof. apply set_eq. intros x. by rewrite elem_of_list_to_set, elem_of_elements. Qed.

(** C5, as the code has it. [get_decoration] maps [None] to [None] for
    either flag; "all" with [conv=True] to a duplicate-free list of
    exactly the fixed vocabulary; an explicit set with [conv=False] to the
    set itself. The result lies inside the fixed vocabulary whenever the
    argument has the declared type, that is, whenever an explicit set holds
    [ResourceDecoration] literals only: the function does not look at the
    tags of an explicit set. *)
Theorem get_decoration_spec :
  (∀ conv, get_decoration None conv = None)
  ∧ (∃ l, get_decoration (Some all) true = Some (AsList l)
          ∧ NoDup l
          ∧ (∀ x, x ∈ l ↔ x ∈ ALL_RESOURCE_DECORATIONS))
  ∧ (∀ s, get_decoration (Some (decorations_set s)) false = Some (AsSet s))
  ∧ (∀ decoration conv d,
       well_typed_decoration decoration →
       get_decoration decoration conv = Some d →
       members d ⊆ ALL_RESOURCE_DECORATIONS).
Proof.
  split; [done|]. split; [|split; [done|]].
  - exists (elements ALL_RESOURCE_DECORATIONS).
    split; [done|]. split; [apply NoDup_elements|].
    intros x. apply elem_of_elements.
  - intros [[|s]|] conv d Htyped Hd; simplify_eq/=.
    + destruct conv; simpl; [by rewrite list_to_set_elements | done].
    + destruct conv; simpl; rewrite ?list_to_set_elements;
        by apply members_subseteq_vocabulary.
Qed.

Lemma get_decoration_spec_witness :
  members (AsList (elements ({["path"]} ∪ {["tags"]} : gset string)))
    ⊆ ALL_RESOURCE_DECORATIONS.
Proof.
  apply (proj2 (proj2 (proj2 get_decoration_spec))
           (Some (decorations_set ({["path"]} ∪ {["tags"]}))) true).
  - intros x [Hx|Hx]%elem_of_union; apply elem_of_singleton in Hx as ->;
      apply (bool_decide_unpack _); reflexivity.
  - reflexivity.
Defined.

(** C5, as stated, fails: an explicit set with a tag outside the
    vocabulary comes back unchanged. *)
Lemma get_decoration_unknown_tag :
  get_decoration (Some (decorations_set {["unknownTag"]})) false
    = Some (AsSet {["unknownTag"]})
  ∧ ¬ (members (AsSet {["unknownTag"]}) ⊆ ALL_RESOURCE_DECORATIONS).
Proof.
  split; [reflexivity|].
  intros Hsub. specialize (Hsub "unknownTag").
  assert ("unknownTag" ∉ ALL_RESOURCE_DECORATIONS) as Hnot.
  { apply (bool_decide_unpack _). vm_compute. exact I. }
  apply Hnot, Hsub. simpl. by apply elem_of_singleton.
Qed.

(** ** Trash *)

Lemma api_add_to_trash_no_content transport rids user_bearer_token kwargs w response :
  transport (mkRequest "POST" "batch/trash/add" (bearer_headers user_bearer_token)
               (JsonRids (elements rids)) kwargs) = Return response →
  status_code response = 204 →
  fst (api_add_to_trash transport rids user_bearer_token kwargs w) = Return response.
Proof.
  intros Hsend Hstatus. unfold api_add_to_trash. run. rewrite Hsend. simpl.
  rewrite bool_decide_eq_false_2; [done|].
  unfold requests.codes.no_content. intros Hne. by apply Hne.
Qed.

Lemma api_add_to_trash_other_status transport rids user_bearer_token kwargs w response :
  transport (mkRequest "POST" "batch/trash/add" (bearer_headers user_bearer_token)
               (JsonRids (elements rids)) kwargs) = Return response →
  status_code response ≠ 204 →
  ∃ text,
    fst (api_add_to_trash transport rids user_bearer_token kwargs w)
      = Raise (FoundryAPIError response (mkErrorHandlingConfig (Some text) (Some rids))).
Proof.
  intros Hsend Hstatus. unfold api_add_to_trash. run. rewrite Hsend. simpl.
  rewrite bool_decide_eq_true_2 by done. simpl. eauto.
Qed.

Lemma api_restore_no_content transport rids user_bearer_token kwargs w response :
  transport (mkRequest "POST" "batch/trash/restore" (bearer_headers user_bearer_token)
               (JsonRids (elements rids)) kwargs) = Return response →
  status_code response = 204 →
  fst (api_restore transport rids user_bearer_token kwargs w) = Return response.
Proof.
  intros Hsend Hstatus. unfold api_restore. run. rewrite Hsend. simpl.
  rewrite bool_decide_eq_false_2; [done|].
  unfold requests.codes.no_content. intros Hne. by apply Hne.
Qed.

Lemma api_restore_other_status transport rids user_bearer_token kwargs w response :
  transport (mkRequest "POST" "batch/trash/restore" (bearer_headers user_bearer_token)
               (JsonRids (elements rids)) kwargs) = Return response →
  status_code response ≠ 204 →
  ∃ text,
    fst (api_restore transport rids user_bearer_token kwargs w)
      = Raise (FoundryAPIError response (mkErrorHandlingConfig (Some text) None)).
Proof.
  intros Hsend Hstatus. unfold api_restore. run. rewrite Hsend. simpl.
  rewrite bool_decide_eq_true_2 by done. simpl. eauto.
Qed.

(** C2 at its failing input: restoring the resource "ri.a" against a
    service that answers 500. The error raised holds the response and the
    text of the failure, and no identifier. *)
Theorem api_restore_error_without_rids :
  fst (api_restore (Service.constant (mkResponse 500 NoJson)) {["ri.a"]} None []
         Service.fresh)
  = Raise (FoundryAPIError (mkResponse 500 NoJson)
             (mkErrorHandlingConfig
                (Some "Issue while restoring resource(s) from trash.") None)).
Proof. reflexivity. Qed.

(** ** [resource_exists] *)

(** C10. [resource_exists(rid)] asks for the single identifier [rid];
    when the answer is a dictionary without the key [rid] the result is
    [False], nothing is raised; when the key is there the result is the
    value stored under it. *)
Theorem resource_exists_spec transport (rid : Rid) w response (m : gmap Rid Json) :
  transport (mkRequest "POST" "batch/resources/exist" None (JsonRids [rid]) [])
    = Return response →
  json response = Mapping m →
  (m !! rid = None → fst (resource_exists transport rid w) = Return (JBool false))
  ∧ (∀ v, m !! rid = Some v → fst (resource_exists transport rid w) = Return v).
Proof.
  intros Hsend Hjson.
  unfold resource_exists, resources_exist, api_resources_exist. run.
  rewrite elements_singleton, Hsend. simpl. rewrite Hjson. simpl.
  split; [intros -> | intros v ->]; done.
Qed.

Lemma resource_exists_spec_witness :
  fst (resource_exists (Service.constant (mkResponse 200 (Mapping {["ri.b" := JBool true]})))
         "ri.a" Service.fresh) = Return (JBool false)
  ∧ fst (resource_exists (Service.constant (mkResponse 200 (Mapping {["ri.b" := JBool true]})))
           "ri.b" Service.fresh) = Return (JBool true).
Proof.
  split.
  - apply (proj1 (resource_exists_spec
                    (Service.constant (mkResponse 200 (Mapping {["ri.b" := JBool true]})))
                    "ri.a" Service.fresh _ {["ri.b" := JBool true]} eq_refl eq_refl)).
    reflexivity.
  - apply (proj2 (resource_exists_spec
                    (Service.constant (mkResponse 200 (Mapping {["ri.b" := JBool true]})))
                    "ri.b" Service.fresh _ {["ri.b" := JBool true]} eq_refl eq_refl)).
    reflexivity.
Defined.

(** ** Integers written in decimal *)

Lemma is_decimal_char_not_space (c : ascii) :
  Py.is_decimal_char c = true → Py.is_space c = false.
Proof.
  unfold Py.is_decimal_char, Py.is_space.
  generalize (N_of_ascii c). intros n [H1 H2]%andb_true_iff.
  apply N.leb_le in H1, H2.
  repeat match goal with
         | |- context [(?a <=? ?b)%N] => destruct (N.leb_spec a b); try lia
         | |- context [(?a =? ?b)%N] => destruct (N.eqb_spec a b); try lia
         end; reflexivity.
Qed.

Lemma lstrip_decimal (s : string) : Py.all_decimal s = true → Py.lstrip s = s.
Proof.
  destruct s as [|c r]; [done|]. simpl. intros [Hc _]%andb_true_iff.
  by rewrite (is_decimal_char_not_space c Hc).
Qed.

Lemma rstrip_decimal (s : string) : Py.all_decimal s = true → Py.rstrip s = s.
Proof.
  induction s as [|c r IH]; [done|]. simpl. intros [Hc Hr]%andb_true_iff.
  rewrite (IH Hr). destruct r; [|done].
  by rewrite (is_decimal_char_not_space c Hc).
Qed.

Lemma digit_value_nonneg (c : ascii) : Py.is_decimal_char c = true → 0 ≤ Py.digit_value c.
Proof.
  unfold Py.is_decimal_char, Py.digit_value.
  intros [H1 _]%andb_true_iff. apply N.leb_le in H1. lia.
Qed.

Lemma int_digits_decimal (s : string) (acc : Z) :
  Py.all_decimal s = true → 0 ≤ acc →
  ∃ n, Py.int_digits acc true s = Some n ∧ 0 ≤ n.
Proof.
  revert acc. induction s as [|c r IH]; intros acc Hs Hacc; simpl; [eauto|].
  simpl in Hs. apply andb_true_iff in Hs as [Hc Hr]. rewrite Hc.
  apply IH; [done|]. pose proof (digit_value_nonneg c Hc). lia.
Qed.

Lemma int_unsigned (c : ascii) (r : string) :
  Py.is_decimal_char c = true →
  Py.int (String c r) = Py.int_digits 0 false (Py.strip (String c r)).
Proof.
  intros Hc. unfold Py.int, Py.strip.
  change (Py.lstrip (String c r)) with (if Py.is_space c then Py.lstrip r else String c r).
  rewrite (is_decimal_char_not_space c Hc).
  assert (∃ r', Py.rstrip (String c r) = String c r') as [r' ->].
  { simpl. destruct (Py.rstrip r); [|eauto].
    rewrite (is_decimal_char_not_space c Hc). eauto. }
  destruct c as [[] [] [] [] [] [] [] []]; try discriminate Hc; reflexivity.
Qed.

(** [int] reads every string that [isdecimal] accepts, as a natural number. *)
Lemma isdecimal_int (s : string) :
  Py.isdecimal s = true → ∃ n, Py.int s = Some n ∧ 0 ≤ n.
Proof.
  destruct s as [|c r]; [done|]. intros Hs. simpl in Hs.
  pose proof Hs as [Hc Hr]%andb_true_iff.
  rewrite (int_unsigned c r Hc). unfold Py.strip.
  rewrite lstrip_decimal, rstrip_decimal by (simpl; by rewrite Hc, Hr).
  simpl. rewrite Hc.
  apply int_digits_decimal; [done|]. pose proof (digit_value_nonneg c Hc). lia.
Qed.


(** ** [api_search_projects] *)

Lemma clamp_page_size_below (page_size : Z) (w : World) :
  page_size < MINIMUM_PROJECTS_PAGE_SIZE →
  ∃ msg, clamp_page_size page_size w
         = (Return MINIMUM_PROJECTS_PAGE_SIZE,
            mkWorld (sent w) (warned w ++ [msg]) (yielded w)).
Proof.
  intros Hlt. unfold clamp_page_size.
  destruct (Z.ltb_spec page_size MINIMUM_PROJECTS_PAGE_SIZE); [|lia].
  run. eauto.
Qed.

Lemma clamp_page_size_above (page_size : Z) (w : World) :
  MAXIMUM_PROJECTS_PAGE_SIZE < page_size →
  ∃ msg, clamp_page_size page_size w
         = (Return MAXIMUM_PROJECTS_PAGE_SIZE,
            mkWorld (sent w) (warned w ++ [msg]) (yielded w)).
Proof.
  intros Hgt. unfold clamp_page_size.
  destruct (Z.ltb_spec page_size MINIMUM_PROJECTS_PAGE_SIZE).
  { unfold MINIMUM_PROJECTS_PAGE_SIZE, MAXIMUM_PROJECTS_PAGE_SIZE in *. lia. }
  rewrite (proj2 (Z.gtb_gt _ _)) by lia.
  run. eauto.
Qed.

Lemma clamp_page_size_within (page_size : Z) (w : World) :
  MINIMUM_PROJECTS_PAGE_SIZE ≤ page_size ≤ MAXIMUM_PROJECTS_PAGE_SIZE →
  clamp_page_size page_size w = (Return page_size, w).
Proof.
  intros [Hmin Hmax]. unfold clamp_page_size.
  destruct (Z.ltb_spec page_size MINIMUM_PROJECTS_PAGE_SIZE); [lia|].
  destruct (Z.gtb_spec page_size MAXIMUM_PROJECTS_PAGE_SIZE); [lia|done].
Qed.

(** Whatever the page size, it is brought into its range and the world
    keeps its requests and its yields. *)
Lemma clamp_page_size_returns (page_size : Z) (w : World) :
  ∃ w', clamp_page_size page_size w
        = (Return (Z.max MINIMUM_PROJECTS_PAGE_SIZE
                     (Z.min MAXIMUM_PROJECTS_PAGE_SIZE page_size)), w')
        ∧ sent w' = sent w ∧ yielded w' = yielded w.
Proof.
  destruct (Z.lt_ge_cases page_size MINIMUM_PROJECTS_PAGE_SIZE) as [Hlt|Hge].
  - destruct (clamp_page_size_below page_size w Hlt) as [msg ->].
    rewrite Z.max_l by (unfold MINIMUM_PROJECTS_PAGE_SIZE, MAXIMUM_PROJECTS_PAGE_SIZE in *; lia).
    eexists. split; [reflexivity | done].
  - destruct (Z.lt_ge_cases MAXIMUM_PROJECTS_PAGE_SIZE page_size) as [Hgt|Hle].
    + destruct (clamp_page_size_above page_size w Hgt) as [msg ->].
      rewrite Z.min_l, Z.max_r
        by (unfold MINIMUM_PROJECTS_PAGE_SIZE, MAXIMUM_PROJECTS_PAGE_SIZE in *; lia).
      eexists. split; [reflexivity | done].
    + rewrite clamp_page_size_within by lia.
      rewrite Z.min_r, Z.max_r by lia.
      eexists. split; [reflexivity | done].
Qed.

Lemma check_page_token_accepts (page_token : option string) (w : World) :
  (page_token = None
   ∨ ∃ s n, page_token = Some s ∧ Py.isdecimal s = true ∧ Py.int s = Some n
            ∧ 0 ≤ n ≤ 500) →
  check_page_token page_token w = (Return tt, w).
Proof.
  intros [-> | (s & n & -> & Hdec & Hint & Hmin & Hmax)]; [done|].
  unfold check_page_token. rewrite Hdec, Hint. simpl.
  unfold MINIMUM_PROJECTS_SEARCH_OFFSET, MAXIMUM_PROJECTS_SEARCH_OFFSET.
  destruct (Z.ltb_spec n 0); [lia|].
  destruct (Z.gtb_spec n 500); [lia|done].
Qed.

Lemma check_page_token_rejects (page_token : option string) (w : World) :
  (∃ s, page_token = Some s
        ∧ (Py.isdecimal s = false ∨ ∃ n, Py.int s = Some n ∧ (n < 0 ∨ 500 < n))) →
  ∃ msg, check_page_token page_token w = (Raise (ValueError msg), w).
Proof.
  intros (s & -> & Hbad). unfold check_page_token.
  destruct (Py.isdecimal s) eqn:Hdec; simpl; [|eauto].
  destruct Hbad as [|(n & Hint & Hrange)]; [done|]. rewrite Hint.
  unfold MINIMUM_PROJECTS_SEARCH_OFFSET, MAXIMUM_PROJECTS_SEARCH_OFFSET.
  destruct (Z.ltb_spec n 0); [eauto|].
  destruct (Z.gtb_spec n 500); [eauto|lia].
Qed.

(** The token check has two outcomes only, and they exclude each other. *)
Lemma check_page_token_cases (page_token : option string) :
  (page_token = None
   ∨ ∃ s n, page_token = Some s ∧ Py.isdecimal s = true ∧ Py.int s = Some n
            ∧ 0 ≤ n ≤ 500)
  ∨ (∃ s, page_token = Some s
          ∧ (Py.isdecimal s = false ∨ ∃ n, Py.int s = Some n ∧ (n < 0 ∨ 500 < n))).
Proof.
  destruct page_token as [s|]; [|by left; left].
  destruct (Py.isdecimal s) eqn:Hdec; [|right; eauto].
  destruct (isdecimal_int s Hdec) as (n & Hint & Hn).
  destruct (Z.le_gt_cases n 500).
  - left; right. exists s, n. repeat split; auto.
  - right. exists s. split; [done|]. right. exists n. split; [done|]. lia.
Qed.

Section SearchProjects.

Variable transport : Transport.
Variables (query : option string) (decorations : option ResourceDecorationSetAll).
Variables (organizations tags roles : option (gset string)).
Variable include_home_projects : option bool.
Variable direct_role_grant_principal_ids : option (gmap string (gset string)).
Variable sort : option SortSpec.

Local Abbreviation api_search :=
  (api_search_projects transport query decorations organizations tags roles
     include_home_projects direct_role_grant_principal_ids sort).

(** The request [api_search_projects] builds from a page size already in
    range and a page token. *)
Local Abbreviation search_request page_size page_token kwargs :=
  (mkRequest "POST" "search/projects" None
     (JsonBody
        (SearchBody.mk query
           (match decorations with
            | Some _ => get_decoration decorations true
            | None => None
            end)
           organizations tags roles include_home_projects
           direct_role_grant_principal_ids sort page_size page_token))
     kwargs).

Lemma api_search_projects_sends page_size page_token kwargs (w : World) :
  check_page_token page_token w = (Return tt, w) →
  ∃ w', clamp_page_size page_size w
        = (Return (Z.max MINIMUM_PROJECTS_PAGE_SIZE
                     (Z.min MAXIMUM_PROJECTS_PAGE_SIZE page_size)), w')
    ∧ api_search page_size page_token kwargs w
      = (transport (search_request
                      (Z.max MINIMUM_PROJECTS_PAGE_SIZE
                         (Z.min MAXIMUM_PROJECTS_PAGE_SIZE page_size))
                      page_token kwargs),
         mkWorld (sent w ++ [search_request
                               (Z.max MINIMUM_PROJECTS_PAGE_SIZE
                                  (Z.min MAXIMUM_PROJECTS_PAGE_SIZE page_size))
                               page_token kwargs])
                 (warned w') (yielded w)).
Proof.
  intros Hcheck.
  destruct (clamp_page_size_returns page_size w) as (w' & Hclamp & Hsent & Hyielded).
  exists w'. split; [done|].
  unfold api_search_projects, bind. rewrite Hclamp.
  assert (check_page_token page_token w' = (Return tt, w')) as ->.
  { destruct page_token as [s|]; [|done].
    unfold check_page_token, raise, ret in *.
    repeat case_match; simplify_eq; done. }
  unfold api_request. by rewrite Hsent, Hyielded.
Qed.




Local Abbreviation search_loop page_size :=
  (search_projects_body transport query decorations organizations tags roles
     include_home_projects direct_role_grant_principal_ids sort page_size).


End SearchProjects.





(** ** [range] and slices *)

Lemma range_unfold (start stop step : nat) :
  (0 < step)%nat →
  Py.range start stop step
  = if (start <? stop)%nat then start :: Py.range (start + step) stop step else [].
Proof.
  intros Hstep. unfold Py.range.
  destruct (Nat.ltb_spec start stop) as [Hlt|Hge].
  - assert (((stop - start + (step - 1)) / step
             = S ((stop - (start + step) + (step - 1)) / step))%nat) as ->.
    { destruct (Nat.le_gt_cases step (stop - start)) as [Hbig|Hsmall].
      - replace (stop - start + (step - 1))%nat
          with ((stop - (start + step) + (step - 1)) + 1 * step)%nat by lia.
        rewrite Nat.div_add by lia. lia.
      - replace (stop - (start + step))%nat with 0%nat by lia.
        rewrite (Nat.div_small (0 + (step - 1)) step) by lia.
        symmetry. apply (Nat.div_unique _ _ _ (stop - start - 1)); lia. }
    rewrite <- cons_seq, fmap_cons, <- fmap_S_seq, <- list_fmap_compose.
    f_equal; [lia|]. apply list_fmap_ext. intros _ k _. simpl. lia.
  - replace (stop - start)%nat with 0%nat by lia.
    by rewrite (Nat.div_small (0 + (step - 1)) step) by lia.
Qed.

Lemma slice_from_start {A} (l : list A) (i j : nat) :
  Py.slice l i (i + j) = take j (drop i l).
Proof. unfold Py.slice. f_equal. lia. Qed.

(** ** [get_child_objects_of_folder] *)

Section Children.

Variable transport : Transport.
Variables (rid : Rid) (filter : option (gset string)).
Variables (decoration : option ResourceDecorationSetAll) (limit : option Z).
Variables (sort : option string) (permissive_folders : option bool).
Variables (include_operations : bool) (additional_operations : option string).

Local Abbreviation children_loop :=
  (get_child_objects_of_folder_body transport rid filter decoration limit sort
     permissive_folders include_operations additional_operations).

(** The request [api_get_children] sends for a page token. *)
Local Abbreviation children_request page_token :=
  (mkRequest "GET" ("folders/" +:+ rid +:+ "/children") None
     (Params (ChildrenParams.mk filter (get_decoration decoration true) limit sort
                page_token permissive_folders include_operations
                additional_operations))
     []).

(** One turn of the loop: the request carries the current page token,
    every value of the page is yielded, and the loop ends on a null token
    or goes on with the token of the response. *)
Lemma get_child_objects_of_folder_turn page_token (w : World) response values next fuel :
  transport (children_request page_token) = Return response →
  json response = Page values next →
  while_true (S fuel) children_loop page_token w
  = let w' := mkWorld (sent w ++ [children_request page_token]) (warned w)
                (yielded w ++ values) in
    match next with
    | None => Some (Return tt, w')
    | Some token => while_true fuel children_loop (Some token) w'
    end.
Proof.
  intros Hsend Hjson. simpl.
  unfold get_child_objects_of_folder_body at 1, api_get_children, bind at 1,
    api_request. simpl.
  rewrite Hsend. unfold bind, json_page. rewrite Hjson.
  unfold ret, yield_from. simpl. by destruct next.
Qed.

End Children.

Section Folder.

Variables (token : nat → string) (offset : string → nat).
Variables (items : list Json) (page_size : nat).
Hypothesis page_size_positive : (0 < page_size)%nat.
Hypothesis offset_token : ∀ n, (n < length items)%nat → offset (token n) = n.

Variables (rid : Rid) (filter : option (gset string)).
Variables (decoration : option ResourceDecorationSetAll) (limit : option Z).
Variables (sort : option string) (permissive_folders : option bool).
Variables (include_operations : bool) (additional_operations : option string).

Local Abbreviation folder_loop :=
  (get_child_objects_of_folder_body (Service.folder token offset items page_size)
     rid filter decoration limit sort permissive_folders include_operations
     additional_operations).

Local Abbreviation folder_request page_token :=
  (mkRequest "GET" ("folders/" +:+ rid +:+ "/children") None
     (Params (ChildrenParams.mk filter (get_decoration decoration true) limit sort
                page_token permissive_folders include_operations
                additional_operations))
     []).

(** From the page that starts at [start], the loop asks for the pages at
    [start], [start + page_size], ... and yields the items from [start] on. *)
Lemma folder_loop_from (remaining : nat) :
  ∀ (start : nat) (page_token : option string) (w : World) (fuel : nat),
    (length items - start ≤ remaining)%nat →
    (remaining < fuel)%nat →
    match page_token with None => 0%nat | Some t => offset t end = start →
    while_true fuel folder_loop page_token w
    = Some (Return tt,
            mkWorld (sent w ++ ((λ page_token, folder_request page_token)
                                  <$> page_token
                                      :: (Some ∘ token
                                            <$> Py.range (start + page_size)
                                                  (length items) page_size)))
                    (warned w)
                    (yielded w ++ drop start items)).
Proof.
  induction remaining as [|remaining IH]; intros start page_token w fuel Hrem Hfuel Hstart;
    (destruct fuel as [|fuel]; [lia|]);
    rewrite (get_child_objects_of_folder_turn _ _ _ _ _ _ _ _ _ page_token w
               (mkResponse 200
                  (Page (take page_size (drop start items))
                        (if (start + page_size <? length items)%nat
                         then Some (token (start + page_size)%nat) else None)))
               (take page_size (drop start items))
               (if (start + page_size <? length items)%nat
                then Some (token (start + page_size)%nat) else None)
               fuel)
      by (by subst start);
    rewrite (range_unfold (start + page_size)) by done;
    cbv zeta;
    destruct (Nat.ltb_spec (start + page_size) (length items)) as [Hmore|Hlast];
    try lia.
  - rewrite take_ge by (rewrite length_drop; lia). done.
  - rewrite (IH (start + page_size)%nat) by (auto with lia). simpl.
    rewrite <- !(assoc_L (++)). simpl.
    rewrite <- (take_drop page_size (drop start items)) at 2.
    by rewrite drop_drop.
  - rewrite take_ge by (rewrite length_drop; lia). done.
Qed.

End Folder.

Lemma page_tokens_children rid filter decoration limit sort permissive_folders
    include_operations additional_operations (tokens : list (option string)) :
  page_tokens
    ((λ page_token,
        mkRequest "GET" ("folders/" +:+ rid +:+ "/children") None
          (Params (ChildrenParams.mk filter decoration limit sort page_token
                     permissive_folders include_operations additional_operations))
          []) <$> tokens)
  = tokens.
Proof.
  induction tokens as [|t tokens IH]; [done|].
  change (t :: page_tokens
                 ((λ page_token,
                     mkRequest "GET" ("folders/" +:+ rid +:+ "/children") None
                       (Params (ChildrenParams.mk filter decoration limit sort page_token
                                  permissive_folders include_operations
                                  additional_operations))
                       []) <$> tokens)
          = t :: tokens).
  by rewrite IH.
Qed.

(** C6. The loop of [get_child_objects_of_folder] starts from the absent
    page token; in each turn it sends the current token, yields every
    value of the page that comes back, and either ends (null token) or
    goes on with the token of the response. Against a folder whose fixed
    children are served [page_size] at a time, for any positive
    [page_size], the generator ends and has yielded exactly the children,
    in order, each once; it has asked for the first page without a token
    and for every further page with the token the service gave. *)
Theorem get_child_objects_of_folder_spec
    (token : nat → string) (offset : string → nat) (items : list Json) (page_size : nat)
    (rid : Rid) (filter : option (gset string))
    (decoration : option ResourceDecorationSetAll) (limit : option Z)
    (sort : option string) (permissive_folders : option bool)
    (include_operations : bool) (additional_operations : option string) (w : World) :
  (0 < page_size)%nat →
  (∀ n, (n < length items)%nat → offset (token n) = n) →
  (∀ transport fuel,
     get_child_objects_of_folder transport fuel rid filter decoration limit sort
       permissive_folders include_operations additional_operations w
     = while_true fuel
         (get_child_objects_of_folder_body transport rid filter decoration limit sort
            permissive_folders include_operations additional_operations)
         None w)
  ∧ (∀ transport page_token v response values next fuel,
       transport
         (mkRequest "GET" ("folders/" +:+ rid +:+ "/children") None
            (Params (ChildrenParams.mk filter (get_decoration decoration true) limit sort
                       page_token permissive_folders include_operations
                       additional_operations))
            []) = Return response →
       json response = Page values next →
       while_true (S fuel)
         (get_child_objects_of_folder_body transport rid filter decoration limit sort
            permissive_folders include_operations additional_operations)
         page_token v
       = match next with
         | None =>
             Some (Return tt,
                   mkWorld (sent v ++ [mkRequest "GET" ("folders/" +:+ rid +:+ "/children")
                                         None
                                         (Params (ChildrenParams.mk filter
                                                    (get_decoration decoration true)
                                                    limit sort page_token
                                                    permissive_folders include_operations
                                                    additional_operations))
                                         []])
                           (warned v) (yielded v ++ values))
         | Some t =>
             while_true fuel
               (get_child_objects_of_folder_body transport rid filter decoration limit sort
                  permissive_folders include_operations additional_operations)
               (Some t)
               (mkWorld (sent v ++ [mkRequest "GET" ("folders/" +:+ rid +:+ "/children")
                                      None
                                      (Params (ChildrenParams.mk filter
                                                 (get_decoration decoration true)
                                                 limit sort page_token
                                                 permissive_folders include_operations
                                                 additional_operations))
                                      []])
                        (warned v) (yielded v ++ values))
         end)
  ∧ ∃ w',
      (∀ fuel, (length items < fuel)%nat →
         get_child_objects_of_folder (Service.folder token offset items page_size) fuel
           rid filter decoration limit sort permissive_folders include_operations
           additional_operations w
         = Some (Return tt, w'))
      ∧ yielded w' = yielded w ++ items
      ∧ page_tokens (sent w')
        = page_tokens (sent w)
          ++ None :: (Some ∘ token <$> Py.range page_size (length items) page_size)
      ∧ warned w' = warned w.
Proof.
  intros Hpositive Hcodec. split; [done|]. split.
  - intros transport page_token v response values next fuel Hsend Hjson.
    by rewrite (get_child_objects_of_folder_turn transport rid filter decoration limit
                  sort permissive_folders include_operations additional_operations
                  page_token v response values next fuel Hsend Hjson).
  - eexists. split; [|split; [|split]].
    + intros fuel Hfuel. unfold get_child_objects_of_folder.
      apply (folder_loop_from token offset items page_size Hpositive Hcodec
               rid filter decoration limit sort permissive_folders include_operations
               additional_operations (length items) 0%nat None w fuel);
        [lia | done | done].
    + done.
    + simpl. unfold page_tokens at 1. rewrite omap_app. f_equal.
      apply (page_tokens_children rid filter (get_decoration decoration true) limit sort
               permissive_folders include_operations additional_operations
               (None :: (Some ∘ token <$> Py.range page_size (length items) page_size))).
    + done.
Qed.

Lemma get_child_objects_of_folder_spec_witness :
  ∃ w',
    (∀ fuel, (5 < fuel)%nat →
       get_child_objects_of_folder
         (Service.folder Service.decimal_token Service.decimal_offset
            (JString <$> ["a"; "b"; "c"; "d"; "e"]) 2)
         fuel "ri.compass.main.folder.f" None None None None None false None Service.fresh
       = Some (Return tt, w'))
    ∧ yielded w' = JString <$> ["a"; "b"; "c"; "d"; "e"]
    ∧ page_tokens (sent w') = [None; Some "2"; Some "4"]
    ∧ warned w' = [].
Proof.
  apply (proj2 (proj2 (get_child_objects_of_folder_spec
                  Service.decimal_token Service.decimal_offset
                  (JString <$> ["a"; "b"; "c"; "d"; "e"]) 2
                  "ri.compass.main.folder.f" None None None None None false None
                  Service.fresh ltac:(lia)
                  ltac:(intros n Hn;
                        do 5 (destruct n as [|n]; [reflexivity|]);
                        simpl in Hn; lia)))).
Defined.

(** ** Batches: [get_paths] and [get_projects_by_rids] *)

(** The loop that merges the answers to the batches: one request per
    batch, in order; when every batch is answered with a dictionary whose
    keys are the identifiers of the batch, the keys of the merged
    dictionary are the identifiers of all batches. *)
Lemma for_in_merge transport (request_of : list Rid → Request) (batches : list (list Rid)) :
  (∀ batch, batch ∈ batches →
     ∃ response (answer : gmap Rid Json),
       transport (request_of batch) = Return response
       ∧ json response = Mapping answer
       ∧ dom answer = list_to_set batch) →
  ∀ (result : gmap Rid Json) (w : World),
    ∃ merged,
      for_in batches result
        (λ result batch,
           response <- api_request transport (request_of batch) ;;
           answer <- json_mapping response ;;
           ret (answer ∪ result)) w
      = (Return merged,
         mkWorld (sent w ++ (request_of <$> batches)) (warned w) (yielded w))
      ∧ dom merged = dom result ∪ list_to_set (concat batches).
Proof.
  match goal with |- context [for_in _ _ ?b] => set (body := b) end.
  induction batches as [|batch batches IH]; intros Hanswers result w.
  - exists result. simpl. unfold ret. rewrite app_nil_r. split; [by destruct w|].
    by rewrite (right_id_L ∅ (∪)).
  - destruct (Hanswers batch) as (response & answer & Hsend & Hjson & Hdom);
      [by left|].
    destruct (IH (λ b Hb, Hanswers b (list_elem_of_further _ _ _ Hb)) (answer ∪ result)
                (mkWorld (sent w ++ [request_of batch]) (warned w) (yielded w)))
      as (merged & Hrest & Hmerged).
    exists merged. split.
    + change (for_in (batch :: batches) result body w)
        with (bind (body result batch) (λ s', for_in batches s' body) w).
      unfold bind at 1, body at 1, bind at 1, api_request. rewrite Hsend.
      unfold json_mapping, bind at 1. rewrite Hjson. unfold ret at 1 2.
      rewrite Hrest. simpl. by rewrite <- (assoc_L (++)).
    + rewrite Hmerged, dom_union_L, Hdom. simpl.
      rewrite list_to_set_app_L. by rewrite (assoc_L (∪)), (comm_L (∪) (dom result)).
Qed.

Lemma answering_answers (value : Rid → Json) method api_path headers kwargs
    (batch : list Rid) :
  ∃ response (answer : gmap Rid Json),
    Service.answering value (mkRequest method api_path headers (JsonRids batch) kwargs)
      = Return response
    ∧ json response = Mapping answer
    ∧ dom answer = list_to_set batch.
Proof.
  eexists _, _. split; [reflexivity|]. split; [reflexivity|].
  rewrite dom_list_to_map_L, <- list_fmap_compose.
  f_equal. by rewrite <- (list_fmap_id batch) at 2.
Qed.



(** C1 at its failing input: 100 different project identifiers. The
    threshold and the width of a slice are [GET_PATHS_BATCH_SIZE] while
    the step is [GET_PROJECTS_BATCH_SIZE], so 100 requests are sent, for
    the slices that start at 0, 1, ..., 99 and run to the end of the list:
    the first one holds all 100 identifiers and the identifier "ri.99" is
    in every one of them. *)
Theorem get_projects_by_rids_overlapping_batches :
  let projects :=
    get_projects_by_rids
      (Service.answering (λ rid, JObject [("rid", JString rid)]))
      (Service.numbered_rids 100) Service.fresh in
  let batches := batches_sent (sent (snd projects)) in
  length batches = 100%nat
  ∧ batches !! 0%nat = Some (Service.numbered_rids 100)
  ∧ length <$> batches = reverse (seq 1 100)
  ∧ length (base.filter (λ batch, "ri.99" ∈ batch) batches) = 100%nat
  ∧ GET_PROJECTS_BATCH_SIZE = 1%nat.
Proof. vm_compute. done. Qed.

(* ===================================================================== *)
(** * Further properties *)
(* ===================================================================== *)

(** ** The batches of [get_paths] *)

Lemma concat_slices {A} (l : list A) (width : nat) :
  (0 < width)%nat →
  ∀ (remaining start : nat),
    (length l - start ≤ remaining)%nat →
    concat ((λ i, Py.slice l i (i + width)) <$> Py.range start (length l) width)
    = drop start l.
Proof.
  intros Hwidth. induction remaining as [|remaining IH]; intros start Hrem;
    rewrite range_unfold by done;
    destruct (Nat.ltb_spec start (length l)) as [Hlt|Hge]; try lia.
  - by rewrite drop_ge by lia.
  - rewrite fmap_cons. simpl. rewrite IH by lia.
    rewrite slice_from_start, <- (drop_drop l width start).
    apply take_drop.
  - by rewrite drop_ge by lia.
Qed.

Lemma slices_short {A} (l : list A) (width start stop : nat) :
  Forall (λ batch, length batch ≤ width)%nat
    ((λ i, Py.slice l i (i + width)) <$> Py.range start stop width).
Proof.
  apply Forall_fmap, Forall_forall. intros i _. simpl.
  rewrite slice_from_start, length_take. lia.
Qed.

Section Paths.

#[local] Set Warnings "-inconsistent-scopes".

Variable transport : Transport.

Local Abbreviation paths_request :=
  (λ batch : list Rid, mkRequest "POST" "batch/paths" None (JsonRids batch) []).

(** The batches [get_paths] cuts a list into. *)
Local Abbreviation paths_batches resource_ids :=
  (if Nat.ltb (length resource_ids) GET_PATHS_BATCH_SIZE then cons resource_ids nil
   else fmap (λ i, Py.slice resource_ids i (Nat.add i GET_PATHS_BATCH_SIZE))
          (Py.range 0 (length resource_ids) GET_PATHS_BATCH_SIZE)).

Lemma paths_batches_concat (resource_ids : list Rid) :
  concat (paths_batches resource_ids) = resource_ids.
Proof.
  destruct (length resource_ids <? GET_PATHS_BATCH_SIZE)%nat.
  - simpl. apply app_nil_r.
  - rewrite (concat_slices resource_ids GET_PATHS_BATCH_SIZE ltac:(unfold GET_PATHS_BATCH_SIZE; lia)
               (length resource_ids) 0) by lia.
    apply drop_0.
Qed.

(** X1. For every list of identifiers, [get_paths] sends one request per
    batch; the batches are consecutive pieces of the list of at most 100
    identifiers each, a list shorter than 100 (the empty list too) being
    one batch; the keys of the result are the identifiers asked for,
    whenever the service answers every identifier. *)
Theorem get_paths_batches (resource_ids : list Rid) (w : World) :
  (∀ batch, ∃ response (paths : gmap Rid Json),
      transport (paths_request batch) = Return response
      ∧ json response = Mapping paths
      ∧ dom paths = list_to_set batch) →
  ∃ result w' batches,
    get_paths transport resource_ids w = (Return result, w')
    ∧ sent w' = sent w ++ (paths_request <$> batches)
    ∧ concat batches = resource_ids
    ∧ Forall (λ batch, length batch ≤ 100)%nat batches
    ∧ length batches
      = (if (length resource_ids <? 100)%nat then 1
         else (length resource_ids + 99) / 100)%nat
    ∧ (resource_ids = [] → batches = [[]])
    ∧ dom result = list_to_set resource_ids.
Proof.
  intros Hanswers.
  destruct (for_in_merge transport paths_request (paths_batches resource_ids)
              (λ batch _, Hanswers batch) ∅ w) as (result & Hrun & Hdom).
  rewrite paths_batches_concat, dom_empty_L, (left_id_L ∅ (∪)) in Hdom.
  exists result. eexists. exists (paths_batches resource_ids).
  split; [exact Hrun|]. split; [done|]. split; [apply paths_batches_concat|].
  split; [|split; [|split; [|done]]].
  - destruct (Nat.ltb_spec (length resource_ids) GET_PATHS_BATCH_SIZE) as [Hshort|Hlong].
    + apply Forall_singleton. unfold GET_PATHS_BATCH_SIZE in Hshort. lia.
    + apply (slices_short resource_ids GET_PATHS_BATCH_SIZE).
  - unfold GET_PATHS_BATCH_SIZE.
    destruct (length resource_ids <? 100)%nat; [done|].
    unfold Py.range. rewrite !length_fmap, length_seq. f_equal. lia.
  - by intros ->.
Qed.

(** What the merge of the answers keeps for a key. *)
Lemma for_in_merge_lookup (request_of : list Rid → Request)
    (answer : list Rid → gmap Rid Json) (batches : list (list Rid)) :
  (∀ batch, ∃ response,
      transport (request_of batch) = Return response
      ∧ json response = Mapping (answer batch)) →
  ∀ (result : gmap Rid Json) (w : World),
    ∃ merged,
      for_in batches result
        (λ result batch,
           response <- api_request transport (request_of batch) ;;
           paths <- json_mapping response ;;
           ret (paths ∪ result)) w
      = (Return merged,
         mkWorld (sent w ++ (request_of <$> batches)) (warned w) (yielded w))
      ∧ (∀ k, (∀ batch, batch ∈ batches → answer batch !! k = None) →
              merged !! k = result !! k)
      ∧ (∀ i batch k v,
           batches !! i = Some batch → answer batch !! k = Some v →
           (∀ j later, (i < j)%nat → batches !! j = Some later → answer later !! k = None) →
           merged !! k = Some v).
Proof.
  intros Hanswers.
  match goal with |- context [for_in _ _ ?b] => set (body := b) end.
  induction batches as [|batch batches IH]; intros result w.
  - exists result. simpl. unfold ret. rewrite app_nil_r.
    split; [by destruct w|]. split; [done|]. by intros [].
  - destruct (Hanswers batch) as (response & Hsend & Hjson).
    destruct (IH (answer batch ∪ result)
                (mkWorld (sent w ++ [request_of batch]) (warned w) (yielded w)))
      as (merged & Hrest & Hnone & Hsome).
    exists merged. split; [|split].
    + change (for_in (batch :: batches) result body w)
        with (bind (body result batch) (λ s', for_in batches s' body) w).
      unfold bind at 1, body at 1, bind at 1, api_request. rewrite Hsend.
      unfold json_mapping, bind at 1. rewrite Hjson. unfold ret at 1 2.
      rewrite Hrest. simpl. by rewrite <- (assoc_L (++)).
    + intros k Hk. rewrite Hnone by (intros b Hb; apply Hk; by right).
      rewrite lookup_union_r; [done|]. apply Hk. by left.
    + intros [|i] b k v Hb Hv Hlater; simpl in Hb.
      * simplify_eq. rewrite Hnone.
        -- by apply lookup_union_Some_l.
        -- intros later [j Hj]%list_elem_of_lookup.
           apply (Hlater (S j) later); [lia | done].
      * apply (Hsome i b k v Hb Hv).
        intros j later Hij Hj. apply (Hlater (S j) later); [lia | done].
Qed.

(** X2. When two batches are answered with the same key, [get_paths] keeps
    the value of the later batch; a key that no batch answers is not in the
    result. *)
Theorem get_paths_last_answer_wins (answer : list Rid → gmap Rid Json)
    (resource_ids : list Rid) (w : World) :
  (∀ batch, ∃ response,
      transport (paths_request batch) = Return response
      ∧ json response = Mapping (answer batch)) →
  ∃ result w',
    get_paths transport resource_ids w = (Return result, w')
    ∧ (∀ k, (∀ batch, batch ∈ paths_batches resource_ids → answer batch !! k = None) →
            result !! k = None)
    ∧ (∀ i batch k v,
         paths_batches resource_ids !! i = Some batch → answer batch !! k = Some v →
         (∀ j later, (i < j)%nat → paths_batches resource_ids !! j = Some later →
                     answer later !! k = None) →
         result !! k = Some v).
Proof.
  intros Hanswers.
  destruct (for_in_merge_lookup paths_request answer (paths_batches resource_ids)
              Hanswers ∅ w) as (result & Hrun & Hnone & Hsome).
  exists result. eexists. split; [exact Hrun|]. split; [|exact Hsome].
  intros k Hk. by rewrite Hnone.
Qed.

(** X3. A failure of the dispatcher on one batch ends [get_paths] with that
    failure: the batches before it and the failing one have been sent, no
    later one is; what the earlier batches answered is lost. *)
Theorem get_paths_stops_at_failure (resource_ids : list Rid) (w : World)
    (failing : nat) (batch : list Rid) (e : Exception) :
  (∀ i earlier, (i < failing)%nat → paths_batches resource_ids !! i = Some earlier →
     ∃ response (paths : gmap Rid Json),
       transport (paths_request earlier) = Return response
       ∧ json response = Mapping paths) →
  paths_batches resource_ids !! failing = Some batch →
  transport (paths_request batch) = Raise e →
  get_paths transport resource_ids w
  = (Raise e,
     mkWorld (sent w ++ (paths_request <$> take (S failing) (paths_batches resource_ids)))
       (warned w) (yielded w)).
Proof.
  unfold get_paths.
  generalize (paths_batches resource_ids). intros batches.
  generalize (∅ : gmap Rid Json). revert w failing.
  induction batches as [|first batches IH]; intros w failing result Hearlier Hbatch Hraise;
    [done|].
  match goal with |- context [for_in _ _ ?b] => set (body := b) end.
  change (for_in (first :: batches) result body w)
    with (bind (body result first) (λ s', for_in batches s' body) w).
  destruct failing as [|failing]; simpl in Hbatch.
  - simplify_eq. unfold bind at 1, body at 1, api_get_paths, bind at 1, api_request.
    by rewrite Hraise.
  - destruct (Hearlier 0%nat first ltac:(lia) eq_refl) as (response & paths & Hsend & Hjson).
    unfold bind at 1, body at 1, api_get_paths, bind at 1, api_request. rewrite Hsend.
    unfold json_mapping, bind at 1. rewrite Hjson. unfold ret at 1.
    subst body. cbv beta. unfold ret at 1. cbv beta iota.
    rewrite (IH (mkWorld (sent w ++ [paths_request first]) (warned w) (yielded w))
               failing (paths ∪ result)); [| |done|done].
    + simpl. by rewrite <- (assoc_L (++)).
    + intros i earlier Hi Hearly. apply (Hearlier (S i) earlier); [lia | done].
Qed.

End Paths.

Lemma get_paths_batches_witness :
  ∃ result w' batches,
    get_paths (Service.answering (λ rid, JString ("/projects/" +:+ rid))) [] Service.fresh
    = (Return result, w')
    ∧ sent w'
      = sent Service.fresh
        ++ ((λ batch, mkRequest "POST" "batch/paths" None (JsonRids batch) []) <$> batches)
    ∧ concat batches = []
    ∧ Forall (λ batch, length batch ≤ 100)%nat batches
    ∧ length batches = 1%nat
    ∧ (@nil Rid = [] → batches = [[]])
    ∧ dom result = list_to_set [].
Proof.
  apply (get_paths_batches (Service.answering (λ rid, JString ("/projects/" +:+ rid)))
           [] Service.fresh (answering_answers _ "POST" "batch/paths" None [])).
Defined.

Lemma get_paths_last_answer_wins_witness :
  ∃ result w',
    get_paths (Service.answering (λ rid, JString ("/projects/" +:+ rid)))
      ["ri.a"; "ri.b"] Service.fresh
    = (Return result, w')
    ∧ result !! "ri.c" = None
    ∧ result !! "ri.b" = Some (JString "/projects/ri.b").
Proof.
  destruct (get_paths_last_answer_wins
              (Service.answering (λ rid, JString ("/projects/" +:+ rid)))
              (λ batch, list_to_map ((λ rid, (rid, JString ("/projects/" +:+ rid))) <$> batch))
              ["ri.a"; "ri.b"] Service.fresh
              (λ batch, ex_intro _ _ (conj eq_refl eq_refl)))
    as (result & w' & Hrun & Hnone & Hsome).
  exists result, w'. split; [exact Hrun|]. split.
  - apply Hnone. intros batch ->%list_elem_of_singleton. reflexivity.
  - apply (Hsome 0%nat ["ri.a"; "ri.b"]); [reflexivity | reflexivity |].
    intros [|j] later Hj; [lia | discriminate].
Defined.

Lemma get_paths_stops_at_failure_witness :
  get_paths (λ _, Raise (DispatcherError "connection")) ["ri.a"; "ri.b"] Service.fresh
  = (Raise (DispatcherError "connection"),
     mkWorld [mkRequest "POST" "batch/paths" None (JsonRids ["ri.a"; "ri.b"]) []] [] []).
Proof.
  apply (get_paths_stops_at_failure (λ _, Raise (DispatcherError "connection"))
           ["ri.a"; "ri.b"] Service.fresh 0 ["ri.a"; "ri.b"]
           (DispatcherError "connection")).
  - intros i earlier Hi. lia.
  - reflexivity.
  - reflexivity.
Defined.

(** ** The batches of [get_projects_by_rids] *)

Lemma range_step_one (stop : nat) : Py.range 0 stop 1 = seq 0 stop.
Proof.
  unfold Py.range. replace ((stop - 0 + (1 - 1)) / 1)%nat with stop
    by (rewrite Nat.div_1_r; lia).
  rewrite <- (list_fmap_id (seq 0 stop)) at 2.
  apply list_fmap_ext. intros _ k _. simpl. lia.
Qed.

Lemma elem_of_concat {A} (x : A) (ls : list (list A)) :
  x ∈ concat ls ↔ ∃ l, x ∈ l ∧ l ∈ ls.
Proof.
  induction ls as [|l ls IH]; simpl.
  - split; [by intros ?%not_elem_of_nil | by intros (l & _ & ?%not_elem_of_nil)].
  - rewrite elem_of_app, IH. split.
    + intros [Hx | (l' & Hx & Hl')]; [exists l | exists l']; split; auto;
        [by left | by right].
    + intros (l' & Hx & [-> | Hl']%elem_of_cons); [by left | right; eauto].
Qed.

Lemma overlapping_slices_members (rids : list Rid) (width : nat) :
  (0 < width)%nat →
  list_to_set (concat ((λ i, Py.slice rids i (i + width)) <$> seq 0 (length rids)))
  = (list_to_set rids : gset Rid).
Proof.
  intros Hwidth. apply set_eq. intros x.
  rewrite !elem_of_list_to_set, elem_of_concat. split.
  - intros (batch & Hx & (i & -> & _)%list_elem_of_fmap).
    rewrite slice_from_start in Hx.
    by apply (subseteq_drop i), (subseteq_take width).
  - intros [i Hi]%list_elem_of_lookup.
    exists (Py.slice rids i (i + width)). split.
    + rewrite slice_from_start. apply list_elem_of_lookup. exists 0%nat.
      rewrite lookup_take_lt, lookup_drop by lia. by rewrite Nat.add_0_r.
    + apply list_elem_of_fmap. exists i. split; [done|].
      apply elem_of_seq. apply lookup_lt_Some in Hi. lia.
Qed.

Lemma batches_sent_requests method api_path headers kwargs (batches : list (list Rid)) :
  batches_sent ((λ batch, mkRequest method api_path headers (JsonRids batch) kwargs)
                  <$> batches)
  = batches.
Proof.
  induction batches as [|batch batches IH]; [done|].
  rewrite fmap_cons. unfold batches_sent in *. simpl. f_equal. exact IH.
Qed.

(** X4. For every list of project identifiers, [get_projects_by_rids] returns
    a dictionary whose keys are the identifiers asked for, whenever the
    service answers every identifier. A list shorter than 100 goes out in
    one request; a longer list of [n] identifiers costs [n] requests, the
    one numbered [i] asking for the (at most 100) identifiers from
    position [i] on. *)
Theorem get_projects_by_rids_keys transport (rids : list Rid) (w : World) :
  (∀ batch, ∃ response (projects : gmap Rid Json),
      transport (mkRequest "PUT" "hierarchy/v2/batch/projects" None (JsonRids batch) [])
        = Return response
      ∧ json response = Mapping projects
      ∧ dom projects = list_to_set batch) →
  ∃ result w',
    get_projects_by_rids transport rids w = (Return result, w')
    ∧ dom result = list_to_set rids
    ∧ batches_sent (sent w')
      = batches_sent (sent w)
        ++ (if (length rids <? 100)%nat then [rids]
            else (λ i, take 100 (drop i rids)) <$> seq 0 (length rids)).
Proof.
  intros Hanswers. unfold get_projects_by_rids.
  set (batches := if (length rids <? GET_PATHS_BATCH_SIZE)%nat then [rids]
                  else (λ i, Py.slice rids i (i + GET_PATHS_BATCH_SIZE))
                         <$> Py.range 0 (length rids) GET_PROJECTS_BATCH_SIZE).
  destruct (for_in_merge transport
              (λ batch, mkRequest "PUT" "hierarchy/v2/batch/projects" None
                          (JsonRids batch) [])
              batches (λ batch _, Hanswers batch) ∅ w) as (result & Hrun & Hdom).
  exists result. eexists. split; [exact Hrun|]. simpl.
  rewrite dom_empty_L, (left_id_L ∅ (∪)) in Hdom.
  assert (batches = if (length rids <? 100)%nat then [rids]
                    else (λ i, take 100 (drop i rids)) <$> seq 0 (length rids))
    as Hbatches.
  { unfold batches, GET_PATHS_BATCH_SIZE, GET_PROJECTS_BATCH_SIZE.
    destruct (length rids <? 100)%nat; [done|].
    rewrite range_step_one. apply list_fmap_ext. intros _ i _.
    apply slice_from_start. }
  split.
  - rewrite Hdom. unfold batches, GET_PATHS_BATCH_SIZE, GET_PROJECTS_BATCH_SIZE.
    destruct (length rids <? 100)%nat.
    + simpl. by rewrite app_nil_r.
    + rewrite range_step_one. apply overlapping_slices_members. lia.
  - unfold batches_sent at 1. rewrite omap_app. f_equal.
    rewrite <- Hbatches. apply batches_sent_requests.
Qed.

Lemma get_projects_by_rids_keys_witness :
  ∃ result w',
    get_projects_by_rids (Service.answering (λ rid, JObject [("rid", JString rid)]))
      ["ri.a"; "ri.b"] Service.fresh
    = (Return result, w')
    ∧ dom result = list_to_set ["ri.a"; "ri.b"]
    ∧ batches_sent (sent w') = [["ri.a"; "ri.b"]].
Proof.
  apply (get_projects_by_rids_keys
           (Service.answering (λ rid, JObject [("rid", JString rid)]))
           ["ri.a"; "ri.b"] Service.fresh
           (answering_answers _ "PUT" "hierarchy/v2/batch/projects" None [])).
Defined.

(** X5. [get_project_by_rid] asks for the one identifier and returns what the
    answer holds under it, or [None] when the answer lacks it; it does not
    raise for a project the service does not know. *)
Theorem get_project_by_rid_lookup transport (rid : Rid) (w : World) response
    (projects : gmap Rid Json) :
  transport (mkRequest "PUT" "hierarchy/v2/batch/projects" None (JsonRids [rid]) [])
    = Return response →
  json response = Mapping projects →
  get_project_by_rid transport rid w
  = (Return (projects !! rid),
     mkWorld (sent w ++ [mkRequest "PUT" "hierarchy/v2/batch/projects" None
                           (JsonRids [rid]) []])
       (warned w) (yielded w)).
Proof.
  intros Hsend Hjson. unfold get_project_by_rid, api_get_projects_by_rids. run.
  rewrite Hsend. simpl. by rewrite Hjson.
Qed.

Lemma get_project_by_rid_lookup_witness :
  get_project_by_rid (Service.constant (mkResponse 200 (Mapping ∅))) "ri.a" Service.fresh
  = (Return None,
     mkWorld [mkRequest "PUT" "hierarchy/v2/batch/projects" None (JsonRids ["ri.a"]) []]
       [] []).
Proof.
  pose proof (get_project_by_rid_lookup (Service.constant (mkResponse 200 (Mapping ∅)))
                "ri.a" Service.fresh (mkResponse 200 (Mapping ∅)) ∅ eq_refl eq_refl)
    as Hlookup.
  rewrite lookup_empty in Hlookup. exact Hlookup.
Defined.

(** ** Offsets written in decimal and read back *)







(** ** A listing that never ends *)

(** X6. [get_child_objects_of_folder] has no bound of its own: against a
    service whose every page carries a next-page token, it has not ended
    after any number of requests. *)
Theorem get_child_objects_of_folder_unbounded transport (rid : Rid)
    (filter : option (gset string)) (decoration : option ResourceDecorationSetAll)
    (limit : option Z) (sort : option string) (permissive_folders : option bool)
    (include_operations : bool) (additional_operations : option string) :
  (∀ page_token, ∃ response values token,
      transport
        (mkRequest "GET" ("folders/" +:+ rid +:+ "/children") None
           (Params (ChildrenParams.mk filter (get_decoration decoration true) limit sort
                      page_token permissive_folders include_operations
                      additional_operations))
           []) = Return response
      ∧ json response = Page values (Some token)) →
  ∀ fuel w,
    get_child_objects_of_folder transport fuel rid filter decoration limit sort
      permissive_folders include_operations additional_operations w
    = None.
Proof.
  intros Hpages fuel. unfold get_child_objects_of_folder.
  generalize (@None string).
  induction fuel as [|fuel IH]; intros page_token w; [done|].
  destruct (Hpages page_token) as (response & values & token & Hsend & Hjson).
  rewrite (get_child_objects_of_folder_turn transport rid filter decoration limit sort
             permissive_folders include_operations additional_operations
             page_token w response values (Some token) fuel Hsend Hjson).
  apply IH.
Qed.

Lemma get_child_objects_of_folder_unbounded_witness :
  get_child_objects_of_folder
    (Service.constant (mkResponse 200 (Page [JString "a"] (Some "more"))))
    1000 "ri.compass.main.folder.f" None None None None None false None Service.fresh
  = None.
Proof.
  apply (get_child_objects_of_folder_unbounded
           (Service.constant (mkResponse 200 (Page [JString "a"] (Some "more"))))
           "ri.compass.main.folder.f" None None None None None false None
           (λ page_token, ex_intro _ _ (ex_intro _ _ (ex_intro _ _ (conj eq_refl eq_refl))))).
Defined.

(** ** What a search sends and warns *)

(** The warnings of one handling of the page size: none inside the range,
    one outside; the same for every call. *)
Lemma clamp_page_size_warns (page_size : Z) :
  ∃ warns,
    (∀ w, clamp_page_size page_size w
          = (Return (Z.max 1 (Z.min 500 page_size)),
             mkWorld (sent w) (warned w ++ warns) (yielded w)))
    ∧ (1 ≤ page_size ≤ 500 → warns = [])
    ∧ (¬ (1 ≤ page_size ≤ 500) → ∃ msg, warns = [msg]).
Proof.
  unfold clamp_page_size, MINIMUM_PROJECTS_PAGE_SIZE, MAXIMUM_PROJECTS_PAGE_SIZE.
  destruct (Z.ltb_spec page_size 1) as [Hlt|Hge].
  - eexists [_]. split; [|split; [lia | eauto]].
    intros w. unfold bind, warn, ret. rewrite Z.max_l by lia. reflexivity.
  - destruct (Z.gtb_spec page_size 500) as [Hgt|Hle].
    + eexists [_]. split; [|split; [lia | eauto]].
      intros w. unfold bind, warn, ret. rewrite Z.min_l, Z.max_r by lia. reflexivity.
    + exists []. split; [|split; [done | lia]].
      intros w. unfold ret. rewrite Z.min_r, Z.max_r by lia.
      rewrite app_nil_r. by destruct w.
Qed.

Section SearchRuns.

Variable transport : Transport.
Variables (query : option string) (decorations : option ResourceDecorationSetAll).
Variables (organizations tags roles : option (gset string)).
Variable include_home_projects : option bool.
Variable direct_role_grant_principal_ids : option (gmap string (gset string)).
Variable sort : option SortSpec.

Local Abbreviation run_search :=
  (api_search_projects transport query decorations organizations tags roles
     include_home_projects direct_role_grant_principal_ids sort).

Local Abbreviation run_body page_size :=
  (search_projects_body transport query decorations organizations tags roles
     include_home_projects direct_role_grant_principal_ids sort page_size).

Local Abbreviation request_for page_size page_token kwargs :=
  (mkRequest "POST" "search/projects" None
     (JsonBody
        (SearchBody.mk query
           (match decorations with
            | Some _ => get_decoration decorations true
            | None => None
            end)
           organizations tags roles include_home_projects
           direct_role_grant_principal_ids sort
           (Z.max 1 (Z.min 500 page_size)) page_token))
     kwargs).

Lemma check_page_token_any_world (page_token : option string) (w v : World) r :
  check_page_token page_token w = (r, w) → check_page_token page_token v = (r, v).
Proof.
  destruct page_token as [s|]; unfold check_page_token, raise, ret;
    repeat case_match; intros; simplify_eq; done.
Qed.

(** One call of [api_search_projects], with its warnings. *)
Lemma api_search_projects_run page_size (warns : list string) :
  (∀ w, clamp_page_size page_size w
        = (Return (Z.max 1 (Z.min 500 page_size)),
           mkWorld (sent w) (warned w ++ warns) (yielded w))) →
  ∀ page_token kwargs (w : World),
    (check_page_token page_token w = (Return tt, w) →
       run_search page_size page_token kwargs w
       = (transport (request_for page_size page_token kwargs),
          mkWorld (sent w ++ [request_for page_size page_token kwargs])
            (warned w ++ warns) (yielded w)))
    ∧ (∀ msg, check_page_token page_token w = (Raise (ValueError msg), w) →
         run_search page_size page_token kwargs w
         = (Raise (ValueError msg),
            mkWorld (sent w) (warned w ++ warns) (yielded w))).
Proof.
  intros Hclamp page_token kwargs w. split.
  - intros Hcheck. unfold api_search_projects, bind. rewrite Hclamp.
    by rewrite (check_page_token_any_world page_token w _ _ Hcheck).
  - intros msg Hcheck. unfold api_search_projects, bind. rewrite Hclamp.
    by rewrite (check_page_token_any_world page_token w _ _ Hcheck).
Qed.

Lemma request_for_in_range page_size page_token kwargs :
  (page_token = None
   ∨ ∃ s n, page_token = Some s ∧ Py.isdecimal s = true ∧ Py.int s = Some n
            ∧ 0 ≤ n ≤ 500) →
  in_search_range (request_for page_size page_token kwargs).
Proof.
  intros Htoken. eexists. split; [reflexivity|]. simpl. split; [lia|].
  destruct Htoken as [-> | (s & n & -> & ?)]; [by left | right; eauto].
Qed.

(** What one turn of the loop of [search_projects] adds to the world. *)
Lemma search_projects_body_effect page_size (warns : list string) :
  (∀ w, clamp_page_size page_size w
        = (Return (Z.max 1 (Z.min 500 page_size)),
           mkWorld (sent w) (warned w ++ warns) (yielded w))) →
  ∀ page_token (w w' : World) r,
    run_body page_size page_token w = (r, w') →
    ∃ reqs,
      sent w' = sent w ++ reqs
      ∧ Forall in_search_range reqs
      ∧ warned w' = warned w ++ warns
      ∧ ((∃ step, r = Return step) → length reqs = 1%nat).
Proof.
  intros Hclamp page_token w w' r Hrun.
  destruct (api_search_projects_run page_size warns Hclamp page_token [] w)
    as [Hsends Hrefuses].
  unfold search_projects_body, bind at 1 in Hrun.
  destruct (check_page_token_cases page_token) as [Hok|Hbad].
  - rewrite (Hsends (check_page_token_accepts page_token w Hok)) in Hrun.
    exists [request_for page_size page_token []].
    assert (Forall in_search_range [request_for page_size page_token []]) as Hrange
      by (apply Forall_singleton; by apply request_for_in_range).
    destruct (transport (request_for page_size page_token [])) as [response|e];
      [|simplify_eq; repeat split; try done; by intros [step ?]].
    unfold bind, json_page, yield_from, ret, raise in Hrun.
    destruct (json response) as [|m|values next]; simpl in Hrun;
      try (simplify_eq; repeat split; try done; by intros [step ?]).
    destruct next as [token|]; [|simplify_eq; by repeat split].
    destruct (Py.int token) as [n|]; [|simplify_eq; repeat split; try done; by intros [step ?]].
    destruct (n >? MAXIMUM_PROJECTS_PAGE_SIZE); simplify_eq; by repeat split.
  - destruct (check_page_token_rejects page_token w Hbad) as [msg Hcheck].
    rewrite (Hrefuses msg Hcheck) in Hrun. simplify_eq.
    exists []. rewrite app_nil_r. repeat split; try done. by intros [step ?].
Qed.

(** The effect of the whole loop, from any page token. *)
Lemma search_projects_loop_effect page_size (warns : list string) :
  (∀ w, clamp_page_size page_size w
        = (Return (Z.max 1 (Z.min 500 page_size)),
           mkWorld (sent w) (warned w ++ warns) (yielded w))) →
  ∀ fuel page_token (w w' : World) r,
    while_true fuel (run_body page_size) page_token w = Some (r, w') →
    ∃ reqs,
      sent w' = sent w ++ reqs
      ∧ Forall in_search_range reqs
      ∧ (r = Return tt →
         warned w' = warned w ++ concat (replicate (length reqs) warns)).
Proof.
  intros Hclamp. induction fuel as [|fuel IH]; intros page_token w w' r Hloop; [done|].
  simpl in Hloop.
  destruct (run_body page_size page_token w) as [step w1] eqn:Hbody.
  destruct (search_projects_body_effect page_size warns Hclamp page_token w w1 step Hbody)
    as (reqs & Hsent & Hrange & Hwarned & Hone).
  destruct step as [[|next]|e].
  - simplify_eq. exists reqs. split; [done|]. split; [done|]. intros _.
    rewrite Hone by eauto. simpl. by rewrite app_nil_r.
  - destruct (IH next w1 w' r Hloop) as (more & Hsent' & Hrange' & Hwarned').
    exists (reqs ++ more). split; [|split].
    + by rewrite Hsent', Hsent, (assoc_L (++)).
    + by apply Forall_app.
    + intros Hr. rewrite (Hwarned' Hr), Hwarned, length_app, Hone by eauto.
      simpl. by rewrite <- (assoc_L (++)).
  - simplify_eq. exists reqs. split; [done|]. split; [done|]. intros [=].
Qed.

(** X7. Whatever the service answers and however the run ends,
    [search_projects] has sent search requests only with a page size from
    1 to 500 and with no page token or a page token of decimal digits that
    denotes an offset from 0 to 500. *)
Theorem search_projects_requests_in_range fuel page_size (w w' : World) r :
  search_projects transport fuel query decorations organizations tags roles
    include_home_projects direct_role_grant_principal_ids sort page_size w
  = Some (r, w') →
  ∃ reqs, sent w' = sent w ++ reqs ∧ Forall in_search_range reqs.
Proof.
  intros Hrun. destruct (clamp_page_size_warns page_size) as (warns & Hclamp & _).
  destruct (search_projects_loop_effect page_size warns Hclamp fuel None w w' r Hrun)
    as (reqs & Hsent & Hrange & _).
  eauto.
Qed.

(** X8. The page size is handled again at every request: a run of
    [search_projects] that ends normally has warned once per request it
    sent when the page size is outside 1 to 500, each time with the same
    text, and has not warned at all when the page size is inside. *)
Theorem search_projects_warns_per_request fuel page_size (w w' : World) :
  search_projects transport fuel query decorations organizations tags roles
    include_home_projects direct_role_grant_principal_ids sort page_size w
  = Some (Return tt, w') →
  ∃ reqs,
    sent w' = sent w ++ reqs
    ∧ (1 ≤ page_size ≤ 500 → warned w' = warned w)
    ∧ (¬ (1 ≤ page_size ≤ 500) →
       ∃ msg, warned w' = warned w ++ replicate (length reqs) msg).
Proof.
  intros Hrun.
  destruct (clamp_page_size_warns page_size) as (warns & Hclamp & Hinside & Houtside).
  destruct (search_projects_loop_effect page_size warns Hclamp fuel None w w' _ Hrun)
    as (reqs & Hsent & _ & Hwarned).
  specialize (Hwarned eq_refl).
  exists reqs. split; [done|]. split.
  - intros Hin. rewrite Hwarned, (Hinside Hin). clear.
    induction (length reqs) as [|k IH]; simpl; [apply app_nil_r | exact IH].
  - intros Hout. destruct (Houtside Hout) as [msg ->]. exists msg.
    rewrite Hwarned. f_equal. clear.
    induction (length reqs) as [|k IH]; simpl; [done | by rewrite IH].
Qed.


End SearchRuns.

Lemma search_projects_requests_in_range_witness :
  ∃ reqs,
    sent (mkWorld [mkRequest "POST" "search/projects" None
                     (JsonBody (SearchBody.mk None None None None None None None None
                                  100 None)) []]
            [] [JString "p"])
    = sent Service.fresh ++ reqs
    ∧ Forall in_search_range reqs.
Proof.
  apply (search_projects_requests_in_range
           (Service.constant (mkResponse 200 (Page [JString "p"] None)))
           None None None None None None None None 1 100 Service.fresh _ (Return tt)
           eq_refl).
Defined.

Lemma search_projects_warns_per_request_witness :
  ∃ reqs,
    sent (mkWorld [mkRequest "POST" "search/projects" None
                     (JsonBody (SearchBody.mk None None None None None None None None
                                  1 None)) []]
            ["Parameter `page_size` (0) is less than the minimum page size (1). Defaulting to 1."]
            [JString "p"])
    = sent Service.fresh ++ reqs
    ∧ (1 ≤ 0 ≤ 500 →
       warned (mkWorld [mkRequest "POST" "search/projects" None
                          (JsonBody (SearchBody.mk None None None None None None None None
                                       1 None)) []]
                 ["Parameter `page_size` (0) is less than the minimum page size (1). Defaulting to 1."]
                 [JString "p"])
       = warned Service.fresh)
    ∧ (¬ (1 ≤ 0 ≤ 500) →
       ∃ msg,
         warned (mkWorld [mkRequest "POST" "search/projects" None
                            (JsonBody (SearchBody.mk None None None None None None None None
                                         1 None)) []]
                   ["Parameter `page_size` (0) is less than the minimum page size (1). Defaulting to 1."]
                   [JString "p"])
         = warned Service.fresh ++ replicate (length reqs) msg).
Proof.
  apply (search_projects_warns_per_request
           (Service.constant (mkResponse 200 (Page [JString "p"] None)))
           None None None None None None None None 1 0 Service.fresh _ eq_refl).
Defined.

(** ** How far a search goes *)

Section ProjectSearch.

Variable items : list Json.
Variables (query : option string) (decorations : option ResourceDecorationSetAll).
Variables (organizations tags roles : option (gset string)).
Variable include_home_projects : option bool.
Variable direct_role_grant_principal_ids : option (gmap string (gset string)).
Variable sort : option SortSpec.
Variable page_size : Z.

(** The page size the requests carry. *)
Local Abbreviation size := (Z.to_nat (Z.max 1 (Z.min 500 page_size))).

Local Abbreviation projects_body :=
  (search_projects_body (Service.projects items) query decorations organizations tags
     roles include_home_projects direct_role_grant_principal_ids sort page_size).




End ProjectSearch.


(** ** Markings *)

(** X10. [api_process_marking] sends its one request exactly when the patch
    operation is "ADD" or "REMOVE"; for any other operation it raises a
    [TypeError] and nothing reaches the dispatcher. [add_marking] and
    [remove_marking] fix the operation and therefore always send. *)
Theorem api_process_marking_checked (transport : Markings.Request → Outcome Response)
    (rid : Rid) (marking_id path_operation_type : string)
    (user_bearer_token : option string) (kwargs : Kwargs)
    (sent : list Markings.Request) :
  (path_operation_type ∈ PatchOperation →
     api_process_marking transport rid marking_id path_operation_type
       user_bearer_token kwargs sent
     = (transport
          (Markings.mk "POST" ("markings/" +:+ rid) (bearer_headers user_bearer_token)
             [Markings.mkPatch marking_id path_operation_type] kwargs),
        sent ++ [Markings.mk "POST" ("markings/" +:+ rid)
                   (bearer_headers user_bearer_token)
                   [Markings.mkPatch marking_id path_operation_type] kwargs]))
  ∧ (path_operation_type ∉ PatchOperation →
       ∃ msg,
         api_process_marking transport rid marking_id path_operation_type
           user_bearer_token kwargs sent
         = (Raise (TypeError msg), sent))
  ∧ add_marking transport rid marking_id user_bearer_token sent
    = (transport
         (Markings.mk "POST" ("markings/" +:+ rid) (bearer_headers user_bearer_token)
            [Markings.mkPatch marking_id "ADD"] []),
       sent ++ [Markings.mk "POST" ("markings/" +:+ rid)
                  (bearer_headers user_bearer_token)
                  [Markings.mkPatch marking_id "ADD"] []])
  ∧ remove_marking transport rid marking_id user_bearer_token sent
    = (transport
         (Markings.mk "POST" ("markings/" +:+ rid) (bearer_headers user_bearer_token)
            [Markings.mkPatch marking_id "REMOVE"] []),
       sent ++ [Markings.mk "POST" ("markings/" +:+ rid)
                  (bearer_headers user_bearer_token)
                  [Markings.mkPatch marking_id "REMOVE"] []]).
Proof.
  split; [|split; [|split]].
  - intros Hin. unfold api_process_marking, assert_in_literal, get_args.
    rewrite bool_decide_eq_false_2; [done | by intros []].
  - intros Hout. unfold api_process_marking, assert_in_literal, get_args.
    rewrite bool_decide_eq_true_2 by done. eauto.
  - reflexivity.
  - reflexivity.
Qed.

Lemma api_process_marking_checked_witness :
  (api_process_marking (λ _, Return (mkResponse 200 NoJson)) "ri.a" "marking-1" "ADD"
     None [] []
   = (Return (mkResponse 200 NoJson),
      [Markings.mk "POST" "markings/ri.a" None [Markings.mkPatch "marking-1" "ADD"] []]))
  ∧ ∃ msg,
      api_process_marking (λ _, Return (mkResponse 200 NoJson)) "ri.a" "marking-1" "add"
        None [] []
      = (Raise (TypeError msg), []).
Proof.
  split.
  - apply (proj1 (api_process_marking_checked (λ _, Return (mkResponse 200 NoJson))
                    "ri.a" "marking-1" "ADD" None [] [])).
    apply (bool_decide_unpack _). reflexivity.
  - apply (proj1 (proj2 (api_process_marking_checked (λ _, Return (mkResponse 200 NoJson))
                    "ri.a" "marking-1" "add" None [] []))).
    apply (bool_decide_unpack _). reflexivity.
Defined.

(** ** Decorations *)

Lemma ResourceDecoration_NoDup : NoDup ResourceDecoration.
Proof. apply (bool_decide_unpack _). vm_compute. exact I. Qed.

Lemma ALL_RESOURCE_DECORATIONS_size : size ALL_RESOURCE_DECORATIONS = 27%nat.
Proof.
  rewrite ALL_RESOURCE_DECORATIONS_literal, size_list_to_set
    by exact ResourceDecoration_NoDup.
  reflexivity.
Qed.

(** X11. The set [ALL_RESOURCE_DECORATIONS] and the literal type
    [ResourceDecoration] name the same 27 tags, none of them twice. *)
Theorem vocabulary_matches_literal :
  ALL_RESOURCE_DECORATIONS = list_to_set ResourceDecoration
  ∧ NoDup ResourceDecoration
  ∧ size ALL_RESOURCE_DECORATIONS = 27%nat
  ∧ length ResourceDecoration = 27%nat.
Proof.
  split; [reflexivity|]. split; [exact ResourceDecoration_NoDup|].
  split; [exact ALL_RESOURCE_DECORATIONS_size | reflexivity].
Qed.

(** X12. The flag of [get_decoration] chooses the container only: with
    [conv=True] the result is a list without duplicates, with [conv=False]
    a set, both with the same tags; and the result is [None] only for the
    argument [None] (an empty set stays an empty collection). *)
Theorem get_decoration_container (decoration : option ResourceDecorationSetAll) :
  (∀ d, get_decoration decoration true = Some d → ∃ l, d = AsList l ∧ NoDup l)
  ∧ (∀ d, get_decoration decoration false = Some d → ∃ s, d = AsSet s)
  ∧ members <$> get_decoration decoration true
    = members <$> get_decoration decoration false
  ∧ (∀ conv, get_decoration decoration conv = None ↔ decoration = None).
Proof.
  destruct decoration as [[|s]|]; simpl.
  - split; [|split; [|split]].
    + intros d [= <-]. eexists. split; [done | apply NoDup_elements].
    + intros d [= <-]. eauto.
    + by rewrite list_to_set_elements.
    + intros conv. split; intros; simplify_eq.
  - split; [|split; [|split]].
    + intros d [= <-]. eexists. split; [done | apply NoDup_elements].
    + intros d [= <-]. eauto.
    + by rewrite list_to_set_elements.
    + intros conv. split; intros; simplify_eq.
  - split; [done|]. split; [done|]. split; [done|]. done.
Qed.

Lemma get_decoration_container_witness :
  ∃ l, AsList (elements ({["path"]} : gset string)) = AsList l ∧ NoDup l.
Proof.
  apply (proj1 (get_decoration_container (Some (decorations_set {["path"]})))
           (AsList (elements ({["path"]} : gset string)))).
  reflexivity.
Defined.

(** X13. A request for decoration "all" carries the whole vocabulary as a
    list, each of the 27 tags once, in the query of [api_get_children] as
    in the body of [api_search_projects]; without a decoration argument
    the field is absent. *)
Theorem decoration_all_is_sent_as_list transport (rid : Rid)
    (decoration : option ResourceDecorationSetAll) (page_size : Z) (w : World) :
  ∃ (p : ChildrenParams.t) (b : SearchBody.t) req_children req_search w_children w_search,
    api_get_children transport rid None decoration None None None None false None w
      = (transport req_children, w_children)
    ∧ sent w_children = sent w ++ [req_children]
    ∧ data req_children = Params p
    ∧ api_search_projects transport None decoration None None None None None None
        page_size None [] w
      = (transport req_search, w_search)
    ∧ sent w_search = sent w ++ [req_search]
    ∧ data req_search = JsonBody b
    ∧ ChildrenParams.decoration p = SearchBody.decorations b
    ∧ (decoration = None → SearchBody.decorations b = None)
    ∧ (decoration = Some all →
       ∃ l, SearchBody.decorations b = Some (AsList l)
            ∧ NoDup l ∧ length l = 27%nat
            ∧ ∀ x, x ∈ l ↔ x ∈ ResourceDecoration).
Proof.
  destruct (api_search_projects_sends transport None decoration None None None None None None
              page_size None [] w eq_refl) as (w1 & _ & Hsearch).
  eexists _, _, _, _, _, _.
  split; [reflexivity|]. split; [reflexivity|]. split; [reflexivity|].
  split; [exact Hsearch|]. split; [reflexivity|]. split; [reflexivity|].
  simpl. split; [by destruct decoration|].
  split; [by intros ->|].
  intros ->. simpl. eexists. split; [reflexivity|].
  split; [apply NoDup_elements|]. split.
  - change (length (elements ALL_RESOURCE_DECORATIONS))
      with (size ALL_RESOURCE_DECORATIONS).
    exact ALL_RESOURCE_DECORATIONS_size.
  - intros x. rewrite elem_of_elements, ALL_RESOURCE_DECORATIONS_literal.
    apply elem_of_list_to_set.
Qed.

Lemma decoration_all_is_sent_as_list_witness :
  ∃ (p : ChildrenParams.t) (b : SearchBody.t) req_children req_search w_children w_search,
    api_get_children (Service.constant (mkResponse 200 (Page [] None)))
      "ri.f" None (Some all) None None None None false None Service.fresh
      = (Service.constant (mkResponse 200 (Page [] None)) req_children, w_children)
    ∧ sent w_children = sent Service.fresh ++ [req_children]
    ∧ data req_children = Params p
    ∧ api_search_projects (Service.constant (mkResponse 200 (Page [] None)))
        None (Some all) None None None None None None 100 None [] Service.fresh
      = (Service.constant (mkResponse 200 (Page [] None)) req_search, w_search)
    ∧ sent w_search = sent Service.fresh ++ [req_search]
    ∧ data req_search = JsonBody b
    ∧ ChildrenParams.decoration p = SearchBody.decorations b
    ∧ (Some all = None → SearchBody.decorations b = None)
    ∧ (Some all = Some all →
       ∃ l, SearchBody.decorations b = Some (AsList l)
            ∧ NoDup l ∧ length l = 27%nat
            ∧ ∀ x, x ∈ l ↔ x ∈ ResourceDecoration).
Proof.
  apply (decoration_all_is_sent_as_list (Service.constant (mkResponse 200 (Page [] None)))
           "ri.f" (Some all) 100 Service.fresh).
Defined.

(** ** Moving to trash *)


